(** * LivenessDemo: the liveness state machine of [main.js] and of its
      annotated variant with best-face capture

    The program is a browser script.  Its module-level [let] variables
    ([state], [blinkCounter], [mouthOpenCounter], [headShakeData],
    [bestFace]) are modelled as one record that every handler takes and
    returns; the handlers of the event loop (the interval callback, the
    [toBlob] callback, the click on the restart button) are the events of
    a step function.  DOM writes ([statusEl.innerText], [updateUI]'s class
    lists, [alert]) touch nothing the handlers read back and are left out;
    the elements the script looks up when it is loaded are taken to exist.

    JavaScript numbers are IEEE-754 binary64 values: the landmark
    coordinates, the aspect ratios and the detection score are primitive
    floats.  [Date.now()] and the frame counters only ever hold integers,
    which binary64 represents exactly up to [2^53]; they are [Z] and [N]. *)

From Stdlib Require Import ZArith NArith List Bool Lia.
From Stdlib Require Import Floats.
From Stdlib Require String DecimalString.
Import ListNotations.

Set Warnings "-inexact-float".

(** ** JavaScript numbers *)

Module Num.

(** [a > b] on numbers; false when an operand is NaN. *)
Definition gt (a b : float) : bool := (b <? a)%float.

(** [Math.pow(v, 2)], taken as the correctly rounded square [v * v]. *)
Definition pow2 (v : float) : float := (v * v)%float.

(** The largest integer up to which every integer is a binary64 value. *)
Definition MAX_SAFE : N := 2 ^ 53.

(** [c++] on a counter that holds a non-negative integer: exact below
    [2^53]; at [2^53] the sum [2^53 + 1] rounds back to [2^53]. *)
Definition incr (c : N) : N := if (c <? MAX_SAFE)%N then (c + 1)%N else c.

(** Truthiness of a number that holds an integer: everything but [0]. *)
Definition truthy (t : Z) : bool := negb (t =? 0)%Z.

End Num.

(** ** Exceptions

    Reading a property of [undefined] (an index past the end of a landmark
    array) throws a [TypeError]; [None] stands for the thrown exception. *)

Definition exn (A : Type) : Type := option A.

Definition bind {A B : Type} (m : exn A) (k : A -> exn B) : exn B :=
  match m with
  | Some a => k a
  | None => None
  end.

Notation "x <- m ;; k" := (bind m (fun x => k))
  (at level 61, m at next level, right associativity).

(** ** Geometry helpers *)

Module Point.
Record t : Type := mk { x : float; y : float }.
End Point.

Abbreviation point := Point.t.

(** [arr[i]], for an element whose property is read next. *)
Definition at_ (arr : list point) (i : nat) : exn point := nth_error arr i.

(** [dist(p1, p2)]. *)
Definition dist (p1 p2 : point) : float :=
  sqrt (Num.pow2 (Point.x p1 - Point.x p2)
        + Num.pow2 (Point.y p1 - Point.y p2))%float.

(** [getEAR(eye)]. *)
Definition getEAR (eye : list point) : exn float :=
  e1 <- at_ eye 1 ;; e5 <- at_ eye 5 ;;
  let A := dist e1 e5 in
  e2 <- at_ eye 2 ;; e4 <- at_ eye 4 ;;
  let B := dist e2 e4 in
  e0 <- at_ eye 0 ;; e3 <- at_ eye 3 ;;
  let C := dist e0 e3 in
  Some ((A + B) / (2.0 * C))%float.

(** [getMAR(mouth)]. *)
Definition getMAR (mouth : list point) : exn float :=
  p3 <- at_ mouth 3 ;; p9 <- at_ mouth 9 ;;
  let height := dist p3 p9 in
  p0 <- at_ mouth 0 ;; p6 <- at_ mouth 6 ;;
  let width := dist p0 p6 in
  Some (height / width)%float.

(** The landmark object of face-api.js, seen through the five accessors
    the script calls. *)
Record FaceLandmarks : Type := mkLandmarks {
  getLeftEye : list point;
  getRightEye : list point;
  getMouth : list point;
  getNose : list point;
  getJawOutline : list point
}.

(** The nose position relative to the face width.  The script computes it
    inline, with the same statements, in [processLiveness] (state SHAKE)
    and in [captureBestFace]. *)
Definition noseRelX (lms : FaceLandmarks) : exn float :=
  let nose := getNose lms in
  let jaw := getJawOutline lms in
  j0 <- at_ jaw 0 ;;
  let faceLeft := Point.x j0 in
  j16 <- at_ jaw 16 ;;
  let faceRight := Point.x j16 in
  let faceWidth := (faceRight - faceLeft)%float in
  noseTip <- at_ nose 3 ;;
  Some ((Point.x noseTip - faceLeft) / faceWidth)%float.

Module Detection.
(** One element of the array that [detectAllFaces(...).withFaceLandmarks()]
    resolves to: [detection.score] and [landmarks]. *)
Record t : Type := mk { score : float; landmarks : FaceLandmarks }.
End Detection.

Abbreviation detection := Detection.t.

(** ** Configuration and session variables shared by both scripts *)

Definition BLINK_THRESHOLD : float := 0.3%float.
Definition MOUTH_OPEN_THRESHOLD : float := 0.3%float.

(** The values the variable [state] takes. *)
Inductive state_t : Type := LOADING | READY | BLINK | MOUTH | SHAKE | COMPLETED.

Definition state_eqb (a b : state_t) : bool :=
  match a, b with
  | LOADING, LOADING | READY, READY | BLINK, BLINK
  | MOUTH, MOUTH | SHAKE, SHAKE | COMPLETED, COMPLETED => true
  | _, _ => false
  end.

Module HeadShake.
(** [headShakeData]: the [Date.now()] of the last left and right look,
    [0] while none was seen. *)
Record t : Type := mk { left : Z; right : Z; lastX : Z }.
End HeadShake.

(** The module-level variables [processLiveness] reads and writes. *)
Record globals : Type := mkGlobals {
  state : state_t;
  blinkCounter : N;
  mouthOpenCounter : N;
  headShakeData : HeadShake.t
}.

(** The three places where [processLiveness] logs "... detected!", assigns
    the next [state] and calls [updateUI]: the "challenge satisfied" edges. *)
Inductive edge : Type := BlinkDetected | MouthOpenDetected | ShakeDetected.

(** [processLiveness(landmarks)], the same function in both scripts.
    [now] is what [Date.now()] returns during the call; the two reads of
    the clock sit under [noseRelX < 0.4] and [noseRelX > 0.6], of which at
    most one holds (lemma [look_left_right_exclusive]).  The result pairs
    the new values of the variables with the edges of this call. *)
Definition processLiveness (lms : FaceLandmarks) (now : Z) (g : globals)
  : exn (globals * list edge) :=
  match state g with
  | COMPLETED => Some (g, [])
  | BLINK =>
      leftEAR <- getEAR (getLeftEye lms) ;;
      rightEAR <- getEAR (getRightEye lms) ;;
      let avgEAR := ((leftEAR + rightEAR) / 2)%float in
      if (avgEAR <? BLINK_THRESHOLD)%float then
        Some (mkGlobals BLINK (Num.incr (blinkCounter g))
                (mouthOpenCounter g) (headShakeData g), [])
      else if (1 <=? blinkCounter g)%N then
        Some (mkGlobals MOUTH 0 (mouthOpenCounter g) (headShakeData g),
              [BlinkDetected])
      else
        Some (mkGlobals BLINK 0 (mouthOpenCounter g) (headShakeData g), [])
  | MOUTH =>
      mar <- getMAR (getMouth lms) ;;
      if Num.gt mar MOUTH_OPEN_THRESHOLD then
        Some (mkGlobals MOUTH (blinkCounter g)
                (Num.incr (mouthOpenCounter g)) (headShakeData g), [])
      else if (2 <? mouthOpenCounter g)%N then
        Some (mkGlobals SHAKE (blinkCounter g) 0 (headShakeData g),
              [MouthOpenDetected])
      else
        Some (mkGlobals MOUTH (blinkCounter g) 0 (headShakeData g), [])
  | SHAKE =>
      r <- noseRelX lms ;;
      let hs := headShakeData g in
      let l := if (r <? 0.4)%float then now else HeadShake.left hs in
      let rt := if Num.gt r 0.6%float then now else HeadShake.right hs in
      let hs' := HeadShake.mk l rt (HeadShake.lastX hs) in
      if Num.truthy l && Num.truthy rt && (Z.abs (l - rt) <? 2000)%Z then
        Some (mkGlobals COMPLETED (blinkCounter g) (mouthOpenCounter g) hs',
              [ShakeDetected])
      else
        Some (mkGlobals SHAKE (blinkCounter g) (mouthOpenCounter g) hs', [])
  | LOADING | READY => Some (g, [])
  end.

(** ** The event loop of [main.js] *)

Module MainJs.

(** [resetMetrics()]. *)
Definition resetMetrics (g : globals) : globals :=
  mkGlobals (state g) 0 0 (HeadShake.mk 0 0 0).

(** [startLivenessTest()]. *)
Definition startLivenessTest (g : globals) : globals :=
  resetMetrics
    (mkGlobals BLINK (blinkCounter g) (mouthOpenCounter g) (headShakeData g)).

(** The values of the variables when the script is loaded. *)
Definition initial : globals := mkGlobals LOADING 0 0 (HeadShake.mk 0 0 0).

(** What the handlers are called with: a run of the interval callback
    (whether the video is paused or ended, the detected faces in order,
    the clock), or a click on the restart button. *)
Inductive event : Type :=
| Tick (paused : bool) (detections : list detection) (now : Z)
| RestartClick.

(** The body of the interval callback from the point where the awaited
    detections are available.  A [TypeError] thrown by [processLiveness]
    rejects the callback's promise; every assignment of [processLiveness]
    comes after its last landmark read, so the variables are then as
    before the call. *)
Definition onTick (paused : bool) (detections : list detection) (now : Z)
    (g : globals) : globals * list edge :=
  if paused then (g, [])
  else match detections with
       | [] => (g, [])
       | face :: _ =>
           match processLiveness (Detection.landmarks face) now g with
           | Some r => r
           | None => (g, [])
           end
       end.

Definition step (e : event) (g : globals) : globals * list edge :=
  match e with
  | Tick paused detections now => onTick paused detections now g
  | RestartClick => (startLivenessTest g, [])
  end.

(** [onVideoPlay()] up to the installation of the interval. *)
Definition onVideoPlay (g : globals) : globals :=
  startLivenessTest
    (mkGlobals READY (blinkCounter g) (mouthOpenCounter g) (headShakeData g)).

End MainJs.

(** ** The event loop of the variant with best-face capture *)

Module Capture.

(** A still of the video, as [drawImage] copies it and [toBlob] encodes
    it; stills are told apart by a number. *)
Definition Image : Type := N.

Module BestFace.
(** [bestFace]: [blob] is [None] for [null]. *)
Record t : Type := mk { blob : option Image; score : float }.
End BestFace.

(** The variables of the script, and the [toBlob] callbacks that were
    registered and have not run yet: each closure holds the canvas with
    the still it was given and the [score] of its call. *)
Record world : Type := mkWorld {
  vars : globals;
  bestFace : BestFace.t;
  pendingBlobs : list (Image * float)
}.

Definition initialBestFace : BestFace.t := BestFace.mk None 0%float.

Definition initial : world := mkWorld MainJs.initial initialBestFace [].

(** [resetMetrics()]: the resets of [main.js], and [bestFace]. *)
Definition resetMetrics (w : world) : world :=
  mkWorld (MainJs.resetMetrics (vars w)) initialBestFace (pendingBlobs w).

(** [startLivenessTest()]. *)
Definition startLivenessTest (w : world) : world :=
  let g := vars w in
  resetMetrics
    (mkWorld
       (mkGlobals BLINK (blinkCounter g) (mouthOpenCounter g) (headShakeData g))
       (bestFace w) (pendingBlobs w)).

(** [isFrontal] of [captureBestFace]. *)
Definition isFrontal (r : float) : bool :=
  Num.gt r 0.45%float && (r <? 0.55)%float.

(** [captureBestFace(detection)], where [video] is the frame the video
    element shows during the call.  [toBlob] returns at once; its
    callback is run later by the event loop. *)
Definition captureBestFace (video : Image) (d : detection) (w : world)
  : exn world :=
  let score := Detection.score d in
  r <- noseRelX (Detection.landmarks d) ;;
  if isFrontal r && Num.gt score (BestFace.score (bestFace w)) then
    Some (mkWorld (vars w) (bestFace w) (pendingBlobs w ++ [(video, score)]))
  else Some w.

(** The guard of the interval callback around [captureBestFace]. *)
Definition captureGuard (s : state_t) : bool :=
  negb (state_eqb s SHAKE) && negb (state_eqb s COMPLETED)
    && negb (state_eqb s LOADING).

(** The callback given to [toBlob], run for the [k]-th waiting capture;
    [encoded] is false when it is called with [null]. *)
Definition onBlob (k : nat) (encoded : bool) (w : world) : world :=
  match nth_error (pendingBlobs w) k with
  | None => w
  | Some (img, score) =>
      let rest := firstn k (pendingBlobs w) ++ skipn (S k) (pendingBlobs w) in
      if encoded then mkWorld (vars w) (BestFace.mk (Some img) score) rest
      else mkWorld (vars w) (bestFace w) rest
  end.

Inductive event : Type :=
| Tick (paused : bool) (video : Image) (detections : list detection) (now : Z)
| BlobReady (k : nat) (encoded : bool)
| RestartClick.

(** The body of the interval callback from the point where the awaited
    detections are available.  A [TypeError] rejects the callback's
    promise and skips the rest of the body. *)
Definition onTick (paused : bool) (video : Image) (detections : list detection)
    (now : Z) (w : world) : world * list edge :=
  if paused then (w, [])
  else match detections with
       | [] => (w, [])
       | face :: _ =>
           match (if captureGuard (state (vars w))
                  then captureBestFace video face w else Some w) with
           | None => (w, [])
           | Some w1 =>
               match processLiveness (Detection.landmarks face) now (vars w1) with
               | Some (g', out) =>
                   (mkWorld g' (bestFace w1) (pendingBlobs w1), out)
               | None => (w1, [])
               end
           end
       end.

Definition step (e : event) (w : world) : world * list edge :=
  match e with
  | Tick paused video detections now => onTick paused video detections now w
  | BlobReady k encoded => (onBlob k encoded w, [])
  | RestartClick => (startLivenessTest w, [])
  end.

(** [onVideoPlay()] up to the installation of the interval. *)
Definition onVideoPlay (w : world) : world :=
  let g := vars w in
  startLivenessTest
    (mkWorld
       (mkGlobals READY (blinkCounter g) (mouthOpenCounter g) (headShakeData g))
       (bestFace w) (pendingBlobs w)).

(** The [bestFace.score] after each event of a run, in order. *)
Fixpoint scores (es : list event) (w : world) : list float :=
  match es with
  | [] => []
  | e :: es' =>
      let w1 := fst (step e w) in
      BestFace.score (bestFace w1) :: scores es' w1
  end.

End Capture.

(** ** Vocabulary of the properties *)

(** The average eye aspect ratio that [processLiveness] computes in state
    BLINK. *)
Definition avgEAR (lms : FaceLandmarks) : exn float :=
  leftEAR <- getEAR (getLeftEye lms) ;;
  rightEAR <- getEAR (getRightEye lms) ;;
  Some ((leftEAR + rightEAR) / 2)%float.

(** The frame's average EAR is defined and below 0.30. *)
Definition eyesClosed (lms : FaceLandmarks) : bool :=
  match avgEAR lms with
  | Some a => (a <? BLINK_THRESHOLD)%float
  | None => false
  end.

(** The frame's average EAR is defined and at least 0.30. *)
Definition eyesOpen (lms : FaceLandmarks) : bool :=
  match avgEAR lms with
  | Some a => (BLINK_THRESHOLD <=? a)%float
  | None => false
  end.

(** The frame's MAR is defined and above 0.30. *)
Definition mouthOpen (lms : FaceLandmarks) : bool :=
  match getMAR (getMouth lms) with
  | Some m => Num.gt m MOUTH_OPEN_THRESHOLD
  | None => false
  end.

(** The frame's MAR is defined and at most 0.30. *)
Definition mouthShut (lms : FaceLandmarks) : bool :=
  match getMAR (getMouth lms) with
  | Some m => (m <=? MOUTH_OPEN_THRESHOLD)%float
  | None => false
  end.

(** A sequence of frames with a face, each with the clock of its call,
    handed to [processLiveness] one after the other as the interval
    callback does: the final variables and the edges in order. *)
Fixpoint processFrames (fs : list (FaceLandmarks * Z)) (g : globals)
  : globals * list edge :=
  match fs with
  | [] => (g, [])
  | (lms, now) :: fs' =>
      match processLiveness lms now g with
      | Some (g1, out1) =>
          let '(g2, out2) := processFrames fs' g1 in (g2, out1 ++ out2)
      | None => processFrames fs' g
      end
  end.

(** The session moves one challenge forward. *)
Definition advances (a b : state_t) : Prop :=
  (a = BLINK /\ b = MOUTH) \/ (a = MOUTH /\ b = SHAKE)
  \/ (a = SHAKE /\ b = COMPLETED).

(** The variables as a restart leaves them. *)
Definition cleanGlobals : globals := mkGlobals BLINK 0 0 (HeadShake.mk 0 0 0).

(** The frontal band as the specification words it: both ends included. *)
Definition frontalBandOfSpec (r : float) : bool :=
  (0.45 <=? r)%float && (r <=? 0.55)%float.

(** The sign of a binary64 value, NaN accepted under either sign. *)
Definition sf_has_sign (s : bool) (v : spec_float) : Prop :=
  match v with
  | S754_nan => True
  | S754_zero s' | S754_infinity s' | S754_finite s' _ _ => s' = s
  end.

Definition sf_nonneg : spec_float -> Prop := sf_has_sign false.

(** [+Infinity] or NaN: the two values a division by zero produces. *)
Definition infOrNaN (v : float) : Prop := v = infinity \/ v = nan.

(** The state in which an edge's challenge is the active one. *)
Definition challengeState (e : edge) : state_t :=
  match e with
  | BlinkDetected => BLINK
  | MouthOpenDetected => MOUTH
  | ShakeDetected => SHAKE
  end.

(** What a frame may change: the tracker of the active challenge only. *)
Definition othersUntouched (g g' : globals) : Prop :=
  match state g with
  | BLINK =>
      mouthOpenCounter g' = mouthOpenCounter g
      /\ headShakeData g' = headShakeData g
  | MOUTH =>
      blinkCounter g' = blinkCounter g /\ headShakeData g' = headShakeData g
  | SHAKE =>
      blinkCounter g' = blinkCounter g
      /\ mouthOpenCounter g' = mouthOpenCounter g
      /\ HeadShake.lastX (headShakeData g') = HeadShake.lastX (headShakeData g)
  | LOADING | READY | COMPLETED => g' = g
  end.

(** What a frame may emit: at most the edge of the active challenge. *)
Definition ownEdgeOnly (g : globals) (out : list edge) : Prop :=
  out = [] \/ exists e, out = [e] /\ challengeState e = state g.

(** The variables that [main.js] can hold once the interval is installed:
    those [onVideoPlay] leaves, and those any handler then produces. *)
Inductive reachable : globals -> Prop :=
| reach_start : reachable (MainJs.onVideoPlay MainJs.initial)
| reach_step (e : MainJs.event) (g : globals) :
    reachable g -> reachable (fst (MainJs.step e g)).

(** The trackers of the challenges that are not the active one are clean. *)
Definition otherTrackersClean (g : globals) : Prop :=
  match state g with
  | LOADING | READY => False
  | BLINK =>
      mouthOpenCounter g = 0%N /\ headShakeData g = HeadShake.mk 0 0 0
  | MOUTH => blinkCounter g = 0%N /\ headShakeData g = HeadShake.mk 0 0 0
  | SHAKE => blinkCounter g = 0%N /\ mouthOpenCounter g = 0%N
  | COMPLETED => blinkCounter g = 0%N /\ mouthOpenCounter g = 0%N
  end.

(** ** Sample faces *)

Module Sample.

Definition pt (px py : float) : point := Point.mk px py.

Definition origin : point := pt 0 0.

(** A six-point eye contour of width 10 and lid distance [2 * h]: its
    EAR is [h / 5]. *)
Definition eye (h : float) : list point :=
  [pt 0 0; pt 3 h; pt 7 h; pt 10 0; pt 7 (- h); pt 3 (- h)]%float.

(** A twenty-point mouth of width 10 and height [2 * h]: its MAR is
    [h / 5]. *)
Definition mouth (h : float) : list point :=
  [pt 0 0; origin; origin; pt 5 h; origin; origin; pt 10 0; origin; origin;
   pt 5 (- h)]%float ++ repeat origin 10.

(** A nine-point nose ridge whose tip is at abscissa [nx]. *)
Definition nose (nx : float) : list point :=
  [origin; origin; origin; pt nx 0] ++ repeat origin 5.

(** A seventeen-point jaw outline from abscissa 0 to abscissa 100. *)
Definition jaw : list point := pt 0 0 :: repeat origin 15 ++ [pt 100 0].

(** A face with eye parameter [eh], mouth parameter [mh] and nose tip at
    [nx] percent of the face width. *)
Definition face (eh mh nx : float) : FaceLandmarks :=
  mkLandmarks (eye eh) (eye eh) (mouth mh) (nose nx) jaw.

(** Eyes open (EAR 0.4), mouth shut (MAR 0.1), looking ahead. *)
Definition neutral : FaceLandmarks := face 2 0.5 50.
(** Eyes closed (EAR 0.1). *)
Definition blinking : FaceLandmarks := face 0.5 0.5 50.
(** Mouth open (MAR 0.5). *)
Definition gaping : FaceLandmarks := face 2 2.5 50.
(** Nose at 0.3 and at 0.7 of the face width. *)
Definition lookLeft : FaceLandmarks := face 2 0.5 30.
Definition lookRight : FaceLandmarks := face 2 0.5 70.
(** Nose at 0.45 of the face width, the lower end of the band. *)
Definition bandEdge : FaceLandmarks := face 2 0.5 45.

(** An eye contour whose six points coincide. *)
Definition collapsedEye : list point := repeat (pt 100 100) 6.

(** An eye contour whose corners are [2^-500] apart and whose lids lie on
    the first corner. *)
Definition thinEye : list point :=
  [origin; origin; origin; pt 0x1p-500 0; origin; origin]%float.

(** [Number.EPSILON], [2^-52]. *)
Definition EPSILON : float := 0x1p-52%float.

Definition withEyes (e : list point) : FaceLandmarks :=
  mkLandmarks e e (mouth 0.5) (nose 50) jaw.

(** The variables in each challenge state, with clean trackers. *)
Definition inState (s : state_t) : globals :=
  mkGlobals s 0 0 (HeadShake.mk 0 0 0).

End Sample.

(** ** Vocabulary of the further properties *)

(** How far a session has come, in frames it cannot have done without:
    one closed-eyes and one open-eyes frame, three open-mouth frames and a
    closing one, one frame for each look. *)
Definition progress (g : globals) : nat :=
  match state g with
  | LOADING | READY => 0
  | BLINK => if (blinkCounter g =? 0)%N then 0 else 1
  | MOUTH => 2 + N.to_nat (N.min (mouthOpenCounter g) 3)
  | SHAKE =>
      if Num.truthy (HeadShake.left (headShakeData g))
         || Num.truthy (HeadShake.right (headShakeData g))
      then 7 else 6
  | COMPLETED => 8
  end.

(** The frame's MAR is defined. *)
Definition marDefined (lms : FaceLandmarks) : bool :=
  match getMAR (getMouth lms) with
  | Some _ => true
  | None => false
  end.

(** The number of open-mouth frames a sequence starts with. *)
Fixpoint leadingOpen (fs : list (FaceLandmarks * Z)) : nat :=
  match fs with
  | (lms, _) :: rest => if mouthOpen lms then S (leadingOpen rest) else 0
  | [] => 0
  end.

(** Some three consecutive frames of the sequence all have the mouth
    open. *)
Fixpoint openRun3 (fs : list (FaceLandmarks * Z)) : bool :=
  match fs with
  | [] => false
  | _ :: rest => (3 <=? leadingOpen fs)%nat || openRun3 rest
  end.

(** What makes [processLiveness] throw: a landmark group that the active
    challenge reads is too short. *)
Definition unreadable (lms : FaceLandmarks) (s : state_t) : Prop :=
  match s with
  | BLINK =>
      (length (getLeftEye lms) < 6)%nat \/ (length (getRightEye lms) < 6)%nat
  | MOUTH => (length (getMouth lms) < 10)%nat
  | SHAKE =>
      (length (getJawOutline lms) < 17)%nat \/ (length (getNose lms) < 4)%nat
  | LOADING | READY | COMPLETED => False
  end.

(** The worlds the capture variant can be in once the interval is
    installed. *)
Inductive reachableWorld : Capture.world -> Prop :=
| world_start : reachableWorld (Capture.onVideoPlay Capture.initial)
| world_step (e : Capture.event) (w : Capture.world) :
    reachableWorld w -> reachableWorld (fst (Capture.step e w)).

(** [bestFace] holds nothing and score 0, or a still and a score above 0. *)
Definition bestFaceConsistent (bf : Capture.BestFace.t) : Prop :=
  (Capture.BestFace.blob bf = None /\ Capture.BestFace.score bf = 0%float)
  \/ (exists img, Capture.BestFace.blob bf = Some img)
     /\ (0 <? Capture.BestFace.score bf)%float = true.

(** Every waiting capture carries a score above 0. *)
Definition pendingPositive (pend : list (Capture.Image * float)) : Prop :=
  Forall (fun c => (0 <? snd c)%float = true) pend.

(** ** The page

    The elements the scripts write, and the handlers again with their
    writes to the page.  The texts are the scripts' own.  The page the
    browser starts from is the HTML document, which is not part of the
    scripts: the properties hold for every starting page. *)

Module Ui.

Import String.
#[local] Open Scope string_scope.

(** The token set behind [element.classList], in order. *)
Definition classList : Type := list string.

(** [classList.contains(token)]. *)
Definition contains (token : string) (l : classList) : bool :=
  existsb (String.eqb token) l.

(** [classList.remove(...tokens)]. *)
Definition remove (tokens : list string) (l : classList) : classList :=
  filter (fun c => negb (contains c tokens)) l.

(** [classList.add(token)]. *)
Definition add (token : string) (l : classList) : classList :=
  if contains token l then l else (l ++ [token])%list.

(** What the scripts write: the class lists of the three checklist items,
    the texts of [instructionEl] and [statusEl], [restartBtn.style.display],
    and, in the capture variant, the thumbnails appended to the body, the
    texts handed to [alert] and the value assigned to [img_BestFace.src]. *)
Record page : Type := mkPage {
  taskBlink : classList;
  taskMouth : classList;
  taskShake : classList;
  instructionText : string;
  statusText : string;
  restartDisplay : string;
  bodyImages : list Capture.Image;
  alerts : list string;
  bestFaceSrc : option Capture.Image
}.

Definition setTaskBlink (l : classList) (p : page) : page :=
  mkPage l (taskMouth p) (taskShake p) (instructionText p) (statusText p)
    (restartDisplay p) (bodyImages p) (alerts p) (bestFaceSrc p).

Definition setTaskMouth (l : classList) (p : page) : page :=
  mkPage (taskBlink p) l (taskShake p) (instructionText p) (statusText p)
    (restartDisplay p) (bodyImages p) (alerts p) (bestFaceSrc p).

Definition setTaskShake (l : classList) (p : page) : page :=
  mkPage (taskBlink p) (taskMouth p) l (instructionText p) (statusText p)
    (restartDisplay p) (bodyImages p) (alerts p) (bestFaceSrc p).

Definition setInstruction (t : string) (p : page) : page :=
  mkPage (taskBlink p) (taskMouth p) (taskShake p) t (statusText p)
    (restartDisplay p) (bodyImages p) (alerts p) (bestFaceSrc p).

Definition setStatus (t : string) (p : page) : page :=
  mkPage (taskBlink p) (taskMouth p) (taskShake p) (instructionText p) t
    (restartDisplay p) (bodyImages p) (alerts p) (bestFaceSrc p).

Definition setRestartDisplay (t : string) (p : page) : page :=
  mkPage (taskBlink p) (taskMouth p) (taskShake p) (instructionText p)
    (statusText p) t (bodyImages p) (alerts p) (bestFaceSrc p).

(** [Object.values(checklist).forEach(el => ...)]. *)
Definition forEachTask (f : classList -> classList) (p : page) : page :=
  setTaskShake (f (taskShake p))
    (setTaskMouth (f (taskMouth p)) (setTaskBlink (f (taskBlink p)) p)).

(** The two steps that mark one item. *)
Definition mark (old : list string) (new : string) (l : classList)
  : classList :=
  add new (remove old l).

(** [updateUI()] when the variable [state] holds [s].  [onCompleted] is
    the call at the end of the COMPLETED branch: nothing in [main.js], the
    function [onCompleted] in the capture variant. *)
Definition updateUI (onCompleted : page -> page) (s : state_t) (p : page)
  : page :=
  let p := forEachTask (mark ["active"; "completed"] "pending") p in
  match s with
  | BLINK =>
      let p := setInstruction "Please Blink Your Eyes (请眨眼)" p in
      setTaskBlink (mark ["pending"] "active" (taskBlink p)) p
  | MOUTH =>
      let p := setTaskBlink (mark ["pending"] "completed" (taskBlink p)) p in
      let p := setInstruction "Please Open Your Mouth (请张嘴)" p in
      setTaskMouth (mark ["pending"] "active" (taskMouth p)) p
  | SHAKE =>
      let p := setTaskBlink (mark ["pending"] "completed" (taskBlink p)) p in
      let p := setTaskMouth (mark ["pending"] "completed" (taskMouth p)) p in
      let p := setInstruction "Please Shake Your Head (请摇头)" p in
      setTaskShake (mark ["pending"] "active" (taskShake p)) p
  | COMPLETED =>
      let p := forEachTask (mark ["pending"; "active"] "completed") p in
      let p := setInstruction "Verification Success! (验证通过)" p in
      let p := setStatus "Completed" p in
      let p := setRestartDisplay "inline-block" p in
      onCompleted p
  | LOADING | READY => p
  end.

(** [uploadFace(blob)]. *)
Definition uploadFace (b : Capture.Image) (p : page) : page :=
  mkPage (taskBlink p) (taskMouth p) (taskShake p) (instructionText p)
    (statusText p) (restartDisplay p) (bodyImages p) (alerts p) (Some b).

(** [onCompleted()] of the capture variant, with [bestFace] as it is
    during the call. *)
Definition onCompleted (bf : Capture.BestFace.t) (p : page) : page :=
  match Capture.BestFace.blob bf with
  | Some b =>
      let p :=
        mkPage (taskBlink p) (taskMouth p) (taskShake p) (instructionText p)
          (statusText p) (restartDisplay p) (bodyImages p ++ [b])%list (alerts p)
          (bestFaceSrc p) in
      let p := setStatus "Completed. Best face captured!" p in
      let p :=
        mkPage (taskBlink p) (taskMouth p) (taskShake p) (instructionText p)
          (statusText p) (restartDisplay p) (bodyImages p)
          (alerts p ++ ["验证完成！已获取最佳人脸照片，准备上传。"])%list
          (bestFaceSrc p) in
      uploadFace b p
  | None =>
      mkPage (taskBlink p) (taskMouth p) (taskShake p) (instructionText p)
        (statusText p) (restartDisplay p) (bodyImages p)
        (alerts p ++ ["验证完成，但未能捕获清晰人脸。"])%list
        (bestFaceSrc p)
  end.

(** A counter inside a template literal: its decimal digits. *)
Definition showCounter (n : N) : string :=
  DecimalString.NilZero.string_of_uint (N.to_uint n).

Section WithToFixed.

(** [Number.prototype.toFixed(2)], a builtin of the language. *)
Variable toFixed2 : float -> string.

(** [processLiveness(landmarks)] with its writes to the page. *)
Definition processLiveness (onCompleted : page -> page) (lms : FaceLandmarks)
    (now : Z) (g : globals) (p : page) : exn (globals * page * list edge) :=
  match state g with
  | COMPLETED => Some (g, p, [])
  | BLINK =>
      leftEAR <- getEAR (getLeftEye lms) ;;
      rightEAR <- getEAR (getRightEye lms) ;;
      let avgEAR := ((leftEAR + rightEAR) / 2)%float in
      if (avgEAR <? BLINK_THRESHOLD)%float then
        let c := Num.incr (blinkCounter g) in
        Some (mkGlobals BLINK c (mouthOpenCounter g) (headShakeData g),
              setStatus ("Eyes Closed: " ++ showCounter c ++ " (EAR: "
                         ++ toFixed2 avgEAR ++ ")") p,
              [])
      else if (1 <=? blinkCounter g)%N then
        Some (mkGlobals MOUTH 0 (mouthOpenCounter g) (headShakeData g),
              updateUI onCompleted MOUTH p,
              [BlinkDetected])
      else
        Some (mkGlobals BLINK 0 (mouthOpenCounter g) (headShakeData g),
              setStatus ("Eyes Open (EAR: " ++ toFixed2 avgEAR ++ ")") p,
              [])
  | MOUTH =>
      mar <- getMAR (getMouth lms) ;;
      if Num.gt mar MOUTH_OPEN_THRESHOLD then
        let c := Num.incr (mouthOpenCounter g) in
        Some (mkGlobals MOUTH (blinkCounter g) c (headShakeData g),
              setStatus ("Mouth Open: " ++ showCounter c ++ " (MAR: "
                         ++ toFixed2 mar ++ ")") p,
              [])
      else if (2 <? mouthOpenCounter g)%N then
        Some (mkGlobals SHAKE (blinkCounter g) 0 (headShakeData g),
              updateUI onCompleted SHAKE p,
              [MouthOpenDetected])
      else
        Some (mkGlobals MOUTH (blinkCounter g) 0 (headShakeData g),
              setStatus ("Mouth Closed (MAR: " ++ toFixed2 mar ++ ")") p,
              [])
  | SHAKE =>
      r <- noseRelX lms ;;
      let hs := headShakeData g in
      let l := if (r <? 0.4)%float then now else HeadShake.left hs in
      let rt := if Num.gt r 0.6%float then now else HeadShake.right hs in
      let hs' := HeadShake.mk l rt (HeadShake.lastX hs) in
      if Num.truthy l && Num.truthy rt && (Z.abs (l - rt) <? 2000)%Z then
        Some (mkGlobals COMPLETED (blinkCounter g) (mouthOpenCounter g) hs',
              updateUI onCompleted COMPLETED p,
              [ShakeDetected])
      else
        Some (mkGlobals SHAKE (blinkCounter g) (mouthOpenCounter g) hs', p, [])
  | LOADING | READY => Some (g, p, [])
  end.

(** The interval callback of [main.js] with its writes to the page. *)
Definition mainOnTick (paused : bool) (detections : list detection) (now : Z)
    (g : globals) (p : page) : globals * page * list edge :=
  if paused then (g, p, [])
  else match detections with
       | [] => (g, setStatus "No face detected" p, [])
       | face :: _ =>
           match processLiveness (fun q => q) (Detection.landmarks face)
                   now g p with
           | Some (g', p', out) => (g', setStatus "Face detected" p', out)
           | None => (g, p, [])
           end
       end.

(** The handlers of [main.js] with their writes to the page. *)
Definition mainStep (e : MainJs.event) (g : globals) (p : page)
  : globals * page * list edge :=
  match e with
  | MainJs.Tick paused detections now => mainOnTick paused detections now g p
  | MainJs.RestartClick =>
      (MainJs.startLivenessTest g,
       setRestartDisplay "none" (updateUI (fun q => q) BLINK p), [])
  end.

(** The interval callback of the capture variant with its writes. *)
Definition captureOnTick (paused : bool) (video : Capture.Image)
    (detections : list detection) (now : Z) (w : Capture.world) (p : page)
  : Capture.world * page * list edge :=
  if paused then (w, p, [])
  else match detections with
       | [] => (w, setStatus "No face detected" p, [])
       | face :: _ =>
           match (if Capture.captureGuard (state (Capture.vars w))
                  then Capture.captureBestFace video face w else Some w) with
           | None => (w, p, [])
           | Some w1 =>
               match processLiveness (onCompleted (Capture.bestFace w1))
                       (Detection.landmarks face) now (Capture.vars w1) p with
               | Some (g', p', out) =>
                   (Capture.mkWorld g' (Capture.bestFace w1)
                      (Capture.pendingBlobs w1),
                    setStatus "Face detected" p', out)
               | None => (w1, p, [])
               end
           end
       end.

(** The handlers of the capture variant with their writes. *)
Definition captureStep (e : Capture.event) (w : Capture.world) (p : page)
  : Capture.world * page * list edge :=
  match e with
  | Capture.Tick paused video detections now =>
      captureOnTick paused video detections now w p
  | Capture.BlobReady k encoded => (Capture.onBlob k encoded w, p, [])
  | Capture.RestartClick =>
      (Capture.startLivenessTest w,
       setRestartDisplay "none"
         (updateUI (onCompleted (Capture.bestFace w)) BLINK p), [])
  end.

(** The variables and the page that [main.js] can reach once the interval
    is installed, from whatever page the document starts with. *)
Inductive mainReachable : globals -> page -> Prop :=
| main_start (p0 : page) :
    mainReachable (MainJs.onVideoPlay MainJs.initial)
      (updateUI (fun q => q) BLINK p0)
| main_step (e : MainJs.event) (g : globals) (p : page) :
    mainReachable g p ->
    mainReachable (fst (fst (mainStep e g p))) (snd (fst (mainStep e g p))).

(** The same for the capture variant. *)
Inductive captureReachable : Capture.world -> page -> Prop :=
| capture_start (p0 : page) :
    captureReachable (Capture.onVideoPlay Capture.initial)
      (updateUI (onCompleted Capture.initialBestFace) BLINK p0)
| capture_step (e : Capture.event) (w : Capture.world) (p : page) :
    captureReachable w p ->
    captureReachable (fst (fst (captureStep e w p)))
      (snd (fst (captureStep e w p))).

End WithToFixed.

(** The three marker classes of a checklist item. *)
Definition isMarker (c : string) : bool :=
  contains c ["pending"; "active"; "completed"].

(** The marker an item is meant to carry: [position] is the place of its
    challenge in the order BLINK, MOUTH, SHAKE. *)
Definition rank (s : state_t) : nat :=
  match s with
  | LOADING | READY => 0
  | BLINK => 1
  | MOUTH => 2
  | SHAKE => 3
  | COMPLETED => 4
  end.

Definition markerFor (s : state_t) (position : nat) : string :=
  if (rank s <? position)%nat then "pending"
  else if (rank s =? position)%nat then "active"
  else "completed".

(** An item carries the marker [m] and no other marker. *)
Definition marked (m : string) (l : classList) : Prop :=
  forall c, isMarker c = true -> (contains c l = true <-> c = m).

(** The checklist shows the state [s]. *)
Definition checklistShows (s : state_t) (p : page) : Prop :=
  marked (markerFor s 1) (taskBlink p)
  /\ marked (markerFor s 2) (taskMouth p)
  /\ marked (markerFor s 3) (taskShake p).

(** The instruction text of each challenge state. *)
Definition instructionFor (s : state_t) : option string :=
  match s with
  | BLINK => Some "Please Blink Your Eyes (请眨眼)"
  | MOUTH => Some "Please Open Your Mouth (请张嘴)"
  | SHAKE => Some "Please Shake Your Head (请摇头)"
  | COMPLETED => Some "Verification Success! (验证通过)"
  | LOADING | READY => None
  end.

(** The page shows the state [s]: the checklist and the instruction are
    those of [s], and the restart button is displayed in COMPLETED. *)
Definition inSync (s : state_t) (p : page) : Prop :=
  checklistShows s p
  /\ Some (instructionText p) = instructionFor s
  /\ (s = COMPLETED -> restartDisplay p = "inline-block").

(** What the call at the end of the COMPLETED branch leaves alone. *)
Definition keepsLayout (hook : page -> page) : Prop :=
  forall q,
    taskBlink (hook q) = taskBlink q /\ taskMouth (hook q) = taskMouth q
    /\ taskShake (hook q) = taskShake q
    /\ instructionText (hook q) = instructionText q
    /\ restartDisplay (hook q) = restartDisplay q.

(** What a completion reports: the thumbnails, the alerts and the upload. *)
Definition report (p : page)
  : list Capture.Image * list string * option Capture.Image :=
  (bodyImages p, alerts p, bestFaceSrc p).

End Ui.

(** ** Further sample faces *)

Module Sample2.

(** A mouth whose two corners coincide while the lips are 4 apart. *)
Definition pinchedMouth : list point :=
  [Sample.pt 5 0; Sample.origin; Sample.origin; Sample.pt 5 2; Sample.origin;
   Sample.origin; Sample.pt 5 0; Sample.origin; Sample.origin;
   Sample.pt 5 (-2)]%float ++ repeat Sample.origin 10.

Definition pinched : FaceLandmarks :=
  mkLandmarks (Sample.eye 2) (Sample.eye 2) pinchedMouth (Sample.nose 50)
    Sample.jaw.

(** A jaw outline whose two extremes have the same abscissa. *)
Definition flatJaw : list point :=
  Sample.pt 40 0 :: repeat Sample.origin 15 ++ [Sample.pt 40 10].

Definition flat : FaceLandmarks :=
  mkLandmarks (Sample.eye 2) (Sample.eye 2) (Sample.mouth 0.5) (Sample.nose 50)
    flatJaw.

(** A face whose eye contours have five points only. *)
Definition shortEyes : FaceLandmarks :=
  mkLandmarks (firstn 5 (Sample.eye 0.5)) (firstn 5 (Sample.eye 0.5))
    (Sample.mouth 0.5) (Sample.nose 50) Sample.jaw.

(** A face with closed eyes and no nose ridge. *)
Definition noNose : FaceLandmarks :=
  mkLandmarks (Sample.eye 0.5) (Sample.eye 0.5) (Sample.mouth 0.5) []
    Sample.jaw.

End Sample2.

(** ** Proof steps *)

(** Name the integer comparisons that the binary64 order unfolds to. *)
Ltac fold_compare :=
  repeat match goal with
    | |- context [PosDef.Pos.compare_cont Eq ?a ?b] =>
        change (PosDef.Pos.compare_cont Eq a b) with (Pos.compare a b)
    | |- context [IntDef.Z.compare ?a ?b] =>
        change (IntDef.Z.compare a b) with (Z.compare a b)
    end.

(** Split on every integer comparison of the goal. *)
Ltac order_cases :=
  repeat match goal with
    | |- context [Z.compare ?a ?b] => destruct (Z.compare_spec a b)
    | |- context [Pos.compare ?a ?b] => destruct (Pos.compare_spec a b)
    end.

(** Split on the test of the first conditional of the goal. *)
Ltac case_if :=
  match goal with
  | |- context [if ?b then _ else _] => destruct b eqn:?
  end.

(** Split on every [match] of the goal, keeping the equations. *)
Ltac break_match :=
  repeat match goal with
    | |- context [match ?v with _ => _ end] => destruct v eqn:?
    end.

(** The same for the [match]es of a hypothesis. *)
Ltac break_match_in H :=
  repeat match type of H with
    | context [match ?v with _ => _ end] => destruct v eqn:?
    end.

(** Turn every landmark read of the context into a bound on a length. *)
Ltac reads_to_bounds :=
  unfold at_ in *;
  repeat match goal with
    | H : nth_error _ _ = None |- _ => apply nth_error_None in H
    | H : nth_error ?l ?i = Some _ |- _ =>
        assert (length l <= i -> False)%nat
          by (intros Hle; apply nth_error_None in Hle; congruence);
        clear H
    end.

(** * Properties *)

(** ** Binary64 facts

    The primitive operations are related to their specification on
    [spec_float] by the library's [*_spec] statements; order and sign
    facts are proved on the specification. *)

Lemma SFcompare_antisym (a b : spec_float) (c : comparison) :
  SFcompare a b = Some c -> SFcompare b a = Some (CompOpp c).
Proof.
  destruct a as [sa|sa| |sa ma ea], b as [sb|sb| |sb mb eb]; cbn;
    try discriminate;
    try (destruct sa; try destruct sb; intros [= <-]; reflexivity);
    try (destruct sb; intros [= <-]; reflexivity);
    try (intros [= <-]; reflexivity).
  fold_compare.
  destruct sa, sb; intros [= <-]; try reflexivity;
    order_cases; cbn; try reflexivity; lia.
Qed.

Lemma SFcompare_lt_trans (a b c : spec_float) :
  SFcompare a b = Some Lt -> SFcompare b c = Some Lt -> SFcompare a c = Some Lt.
Proof.
  destruct a as [sa|sa| |sa ma ea], b as [sb|sb| |sb mb eb],
           c as [sc|sc| |sc mc ec];
    cbn; try discriminate;
    try (destruct sa; try destruct sb; try destruct sc; cbn; congruence);
    try (destruct sb; try destruct sc; cbn; congruence);
    try (destruct sa; try destruct sc; cbn; congruence).
  fold_compare.
  destruct sa, sb, sc; try congruence;
    order_cases; cbn; try congruence; lia.
Qed.

(** [a <= v] excludes [v < a]. *)
Lemma leb_ltb_false (a v : float) :
  (a <=? v)%float = true -> (v <? a)%float = false.
Proof.
  rewrite leb_spec, ltb_spec. unfold SFleb, SFltb.
  destruct (SFcompare (Prim2SF a) (Prim2SF v)) as [c|] eqn:E; [|discriminate].
  rewrite (SFcompare_antisym _ _ _ E). destruct c; cbn; congruence.
Qed.

Lemma ltb_trans (a b c : float) :
  (a <? b)%float = true -> (b <? c)%float = true -> (a <? c)%float = true.
Proof.
  rewrite !ltb_spec. unfold SFltb.
  destruct (SFcompare (Prim2SF a) (Prim2SF b)) as [[]|] eqn:E1; try discriminate.
  destruct (SFcompare (Prim2SF b) (Prim2SF c)) as [[]|] eqn:E2; try discriminate.
  rewrite (SFcompare_lt_trans _ _ _ E1 E2). reflexivity.
Qed.

(** No value is both below 0.4 and above 0.6: at most one of the two clock
    reads of [processLiveness] happens in a call. *)
Lemma look_left_right_exclusive (r : float) :
  (r <? 0.4)%float = true -> Num.gt r 0.6 = true -> False.
Proof.
  unfold Num.gt. intros H1 H2.
  pose proof (ltb_trans _ _ _ H2 H1) as H. vm_compute in H. discriminate.
Qed.

Lemma binary_round_aux_sign (s : bool) (m e : Z) (l : location) :
  sf_has_sign s (binary_round_aux prec emax s m e l).
Proof.
  unfold binary_round_aux.
  destruct (shr_fexp prec emax m e l) as [mrs' e'].
  destruct (shr_fexp prec emax _ e' loc_Exact) as [mrs'' e''].
  destruct (shr_m mrs''); cbn; trivial.
  case_if; reflexivity.
Qed.

Lemma binary_round_sign (s : bool) (m : positive) (e : Z) :
  sf_has_sign s (binary_round prec emax s m e).
Proof.
  unfold binary_round. destruct (shl_align m e _) as [mz ez].
  apply binary_round_aux_sign.
Qed.

Lemma SFmul_self_nonneg (v : spec_float) : sf_nonneg (SF64mul v v).
Proof.
  destruct v as [s|s| |s m e]; cbn; trivial; try (destruct s; reflexivity).
  replace (xorb s s) with false by (destruct s; reflexivity).
  apply (binary_round_aux_sign false).
Qed.

Lemma SFadd_nonneg (a b : spec_float) :
  sf_nonneg a -> sf_nonneg b -> sf_nonneg (SF64add a b).
Proof.
  destruct a as [sa|sa| |sa ma ea], b as [sb|sb| |sb mb eb]; cbn;
    intros Ha Hb; subst; cbn; trivial.
  apply (binary_round_sign false).
Qed.

Lemma SFsqrt_nonneg (v : spec_float) : sf_nonneg v -> sf_nonneg (SF64sqrt v).
Proof.
  destruct v as [s|s| |s m e]; cbn; intros H; subst; cbn; trivial.
  destruct (SFsqrt_core_binary prec emax (Z.pos m) e) as [[mz ez] lz].
  apply (binary_round_aux_sign false).
Qed.

(** [v - v] is [+0], or NaN when [v] is infinite or NaN. *)
Lemma SFsub_diag (v : spec_float) :
  SF64sub v v = S754_zero false \/ SF64sub v v = S754_nan.
Proof.
  destruct v as [s|s| |s m e]; cbn; auto; try (destruct s; auto).
  all: rewrite Z.sub_diag; auto.
Qed.

(** Dividing a non-negative value by [+0] or by NaN. *)
Lemma SFdiv_by_zero_or_nan (n d : spec_float) :
  sf_nonneg n -> d = S754_zero false \/ d = S754_nan ->
  SF64div n d = S754_infinity false \/ SF64div n d = S754_nan.
Proof.
  intros Hn [-> | ->]; destruct n as [s|s| |s m e]; cbn in *; subst; auto.
Qed.

(** Adding anything to [+Infinity] or NaN, on either side, and halving. *)
Lemma SFhalf_sum_inf_or_nan (v r : spec_float) :
  v = S754_infinity false \/ v = S754_nan ->
  (SF64div (SF64add v r) (Prim2SF 2) = S754_infinity false
   \/ SF64div (SF64add v r) (Prim2SF 2) = S754_nan)
  /\ (SF64div (SF64add r v) (Prim2SF 2) = S754_infinity false
      \/ SF64div (SF64add r v) (Prim2SF 2) = S754_nan).
Proof.
  intros [-> | ->]; destruct r as [s|s| |s m e]; try destruct s;
    vm_compute; auto.
Qed.

Lemma SFltb_inf_or_nan (v c : spec_float) :
  v = S754_infinity false \/ v = S754_nan -> SFltb v c = false.
Proof.
  intros [-> | ->]; destruct c as [s|s| |s m e]; try destruct s; reflexivity.
Qed.

(** ** Degenerate contours *)

Lemma infOrNaN_of_spec (v : float) :
  Prim2SF v = S754_infinity false \/ Prim2SF v = S754_nan -> infOrNaN v.
Proof.
  intros [H | H]; [left | right]; apply Prim2SF_inj; rewrite H; reflexivity.
Qed.

Lemma infOrNaN_spec (v : float) :
  infOrNaN v -> Prim2SF v = S754_infinity false \/ Prim2SF v = S754_nan.
Proof. intros [-> | ->]; [left | right]; reflexivity. Qed.

Lemma dist_nonneg (p q : point) : sf_nonneg (Prim2SF (dist p q)).
Proof.
  unfold dist, Num.pow2. rewrite sqrt_spec, add_spec, !mul_spec.
  apply SFsqrt_nonneg, SFadd_nonneg; apply SFmul_self_nonneg.
Qed.

(** The distance of a point to itself is [+0], or NaN when a coordinate
    is infinite or NaN. *)
Lemma dist_same (p : point) :
  Prim2SF (dist p p) = S754_zero false \/ Prim2SF (dist p p) = S754_nan.
Proof.
  unfold dist, Num.pow2. rewrite sqrt_spec, add_spec, !mul_spec, !sub_spec.
  destruct (SFsub_diag (Prim2SF (Point.x p))) as [-> | ->],
           (SFsub_diag (Prim2SF (Point.y p))) as [-> | ->]; cbn; auto.
Qed.

(** An eye contour of at least six points never makes [getEAR] throw. *)
Lemma getEAR_six (eye : list point) :
  (6 <= length eye)%nat ->
  exists e0 e1 e2 e3 e4 e5,
    at_ eye 0 = Some e0 /\ at_ eye 3 = Some e3 /\
    getEAR eye = Some ((dist e1 e5 + dist e2 e4) / (2.0 * dist e0 e3))%float.
Proof.
  destruct eye as [|e0 [|e1 [|e2 [|e3 [|e4 [|e5 rest]]]]]]; cbn; try lia.
  intros _. exists e0, e1, e2, e3, e4, e5. repeat split.
Qed.

(** With coincident corners the ratio is a division by [+0] or by NaN. *)
Lemma getEAR_coincident (eye : list point) :
  (6 <= length eye)%nat -> at_ eye 0 = at_ eye 3 ->
  exists v, getEAR eye = Some v /\ infOrNaN v.
Proof.
  intros Hlen Hsame.
  destruct (getEAR_six eye Hlen) as (e0 & e1 & e2 & e3 & e4 & e5 & H0 & H3 & ->).
  assert (e3 = e0) as -> by congruence.
  eexists; split; [reflexivity|].
  apply infOrNaN_of_spec. rewrite div_spec, add_spec, mul_spec.
  apply SFdiv_by_zero_or_nan.
  - apply SFadd_nonneg; apply dist_nonneg.
  - destruct (dist_same e0) as [-> | ->]; [left | right]; reflexivity.
Qed.

(** An average with [+Infinity] or NaN on either side is never below a
    threshold. *)
Lemma avg_infOrNaN_not_below (v r c : float) :
  infOrNaN v ->
  ((v + r) / 2 <? c)%float = false /\ ((r + v) / 2 <? c)%float = false.
Proof.
  intros Hv. apply infOrNaN_spec in Hv.
  destruct (SFhalf_sum_inf_or_nan (Prim2SF v) (Prim2SF r) Hv) as [Hl Hr].
  rewrite !ltb_spec, !div_spec, !add_spec.
  split; apply SFltb_inf_or_nan; assumption.
Qed.

(** ** The state machine, frame by frame *)

(** Every call of [processLiveness] that returns leaves the state where it
    was or moves it one challenge forward, touches the tracker of the
    active challenge only, and emits at most that challenge's edge. *)
Lemma processLiveness_frame (lms : FaceLandmarks) (now : Z) (g g' : globals)
    (out : list edge) :
  processLiveness lms now g = Some (g', out) ->
  (state g' = state g \/ advances (state g) (state g'))
  /\ othersUntouched g g' /\ ownEdgeOnly g out.
Proof.
  unfold processLiveness, othersUntouched, ownEdgeOnly, advances, bind.
  destruct g as [s bc mc hs]; cbn.
  destruct s; break_match; intros [= <- <-]; cbn;
    try discriminate; repeat split; auto;
    try (right; eexists; split; reflexivity); tauto.
Qed.

(** In state COMPLETED the call returns at once. *)
Lemma processLiveness_completed (lms : FaceLandmarks) (now : Z) (g : globals) :
  state g = COMPLETED -> processLiveness lms now g = Some (g, []).
Proof. unfold processLiveness. intros ->. reflexivity. Qed.

(** The interval callback of [main.js] inherits the three facts. *)
Lemma mainjs_tick_frame (paused : bool) (dets : list detection) (now : Z)
    (g : globals) :
  let r := MainJs.onTick paused dets now g in
  (state (fst r) = state g \/ advances (state g) (state (fst r)))
  /\ othersUntouched g (fst r) /\ ownEdgeOnly g (snd r).
Proof.
  assert (Hid : (state g = state g \/ advances (state g) (state g))
                /\ othersUntouched g g /\ ownEdgeOnly g []).
  { unfold othersUntouched, ownEdgeOnly. destruct (state g); auto. }
  unfold MainJs.onTick. destruct paused; [exact Hid|].
  destruct dets as [|face rest]; [exact Hid|].
  destruct (processLiveness (Detection.landmarks face) now g) as [[g' out]|] eqn:E;
    [|exact Hid].
  exact (processLiveness_frame _ _ _ _ _ E).
Qed.

(** [captureBestFace] leaves the variables of [processLiveness] and
    [bestFace] as they are; it can only register one more capture. *)
Lemma captureBestFace_vars (video : Capture.Image) (d : detection)
    (w w1 : Capture.world) :
  Capture.captureBestFace video d w = Some w1 ->
  Capture.vars w1 = Capture.vars w
  /\ Capture.bestFace w1 = Capture.bestFace w.
Proof.
  unfold Capture.captureBestFace, bind.
  break_match; intros [= <-]; try discriminate; split; reflexivity.
Qed.

(** The interval callback of the capture variant inherits them too. *)
Lemma capture_tick_frame (paused : bool) (video : Capture.Image)
    (dets : list detection) (now : Z) (w : Capture.world) :
  let r := Capture.onTick paused video dets now w in
  let g := Capture.vars w in
  let g' := Capture.vars (fst r) in
  (state g' = state g \/ advances (state g) (state g'))
  /\ othersUntouched g g' /\ ownEdgeOnly g (snd r)
  /\ Capture.bestFace (fst r) = Capture.bestFace w.
Proof.
  assert (Hid : (state (Capture.vars w) = state (Capture.vars w)
                 \/ advances (state (Capture.vars w)) (state (Capture.vars w)))
                /\ othersUntouched (Capture.vars w) (Capture.vars w)
                /\ ownEdgeOnly (Capture.vars w) []
                /\ Capture.bestFace w = Capture.bestFace w).
  { unfold othersUntouched, ownEdgeOnly.
    destruct (state (Capture.vars w)); auto. }
  unfold Capture.onTick. destruct paused; [exact Hid|].
  destruct dets as [|face rest]; [exact Hid|].
  destruct (if Capture.captureGuard (state (Capture.vars w))
            then Capture.captureBestFace video face w else Some w)
    as [w1|] eqn:Ecap; [|exact Hid].
  assert (Hw1 : Capture.vars w1 = Capture.vars w
                /\ Capture.bestFace w1 = Capture.bestFace w).
  { destruct (Capture.captureGuard (state (Capture.vars w))).
    - exact (captureBestFace_vars _ _ _ _ Ecap).
    - injection Ecap as <-. split; reflexivity. }
  destruct Hw1 as [Hv Hb].
  destruct (processLiveness (Detection.landmarks face) now (Capture.vars w1))
    as [[g' out]|] eqn:E; cbn.
  - rewrite Hv in E. destruct (processLiveness_frame _ _ _ _ _ E) as (H1 & H2 & H3).
    repeat split; assumption.
  - rewrite Hv, Hb. exact Hid.
Qed.

(** A run of the interval callback on a face is one call of
    [processLiveness]: always in [main.js], and in the capture variant
    whenever [captureBestFace] does not throw first (a face without the
    nose or jaw points makes it throw, and the frame is then dropped). *)
Lemma tick_is_processLiveness (face : detection) (rest : list detection)
    (video : Capture.Image) (now : Z) (g : globals) (w : Capture.world)
    (r : float) :
  noseRelX (Detection.landmarks face) = Some r ->
  MainJs.onTick false (face :: rest) now g
  = processFrames [(Detection.landmarks face, now)] g
  /\ Capture.vars (fst (Capture.onTick false video (face :: rest) now w))
     = fst (processFrames [(Detection.landmarks face, now)] (Capture.vars w)).
Proof.
  intros Hr. split.
  - unfold MainJs.onTick. cbn [processFrames].
    destruct (processLiveness (Detection.landmarks face) now g) as [[g1 out]|];
      [rewrite app_nil_r|]; reflexivity.
  - unfold Capture.onTick. cbn [processFrames].
    destruct (if Capture.captureGuard (state (Capture.vars w))
              then Capture.captureBestFace video face w else Some w)
      as [w1|] eqn:Ecap.
    + assert (Hv : Capture.vars w1 = Capture.vars w).
      { destruct (Capture.captureGuard (state (Capture.vars w))).
        - apply (captureBestFace_vars _ _ _ _ Ecap).
        - injection Ecap as <-. reflexivity. }
      rewrite Hv.
      destruct (processLiveness (Detection.landmarks face) now (Capture.vars w))
        as [[g1 out]|]; [reflexivity | exact Hv].
    + destruct (Capture.captureGuard (state (Capture.vars w))); [|discriminate].
      unfold Capture.captureBestFace, bind in Ecap. rewrite Hr in Ecap.
      destruct (Capture.isFrontal r
                && Num.gt (Detection.score face)
                     (Capture.BestFace.score (Capture.bestFace w)));
        discriminate.
Qed.

(** Once the interval is installed, the state is never LOADING or READY
    and the trackers of the challenges that are not the active one are
    clean; so the counter of a challenge is 0 when its state is entered. *)
Lemma reachable_otherTrackersClean (g : globals) :
  reachable g -> otherTrackersClean g.
Proof.
  induction 1 as [|e g Hreach IH].
  - cbn. split; reflexivity.
  - destruct e as [paused dets now|]; [|cbn; split; reflexivity].
    cbn [MainJs.step]. unfold MainJs.onTick.
    destruct paused; [exact IH|]. destruct dets as [|face rest]; [exact IH|].
    destruct (processLiveness (Detection.landmarks face) now g)
      as [[g' out]|] eqn:E; [|exact IH].
    cbn [fst]. destruct g as [s bc mc hs].
    unfold processLiveness, bind in E. cbn in E.
    destruct s; break_match_in E; try discriminate;
      injection E as <- <-; revert IH; unfold otherTrackersClean; cbn; tauto.
Qed.

(** ** Session-level claims *)

(** C6.  Whatever the variables hold and whatever frame arrives, the
    interval callback leaves [state] where it was or moves it one step
    along BLINK, MOUTH, SHAKE, COMPLETED, never backwards; in COMPLETED a
    frame changes nothing at all; the click on the restart button leads
    to BLINK.  The same holds in the capture variant, where the [toBlob]
    callback leaves [state] alone as well. *)
Theorem state_moves_forward_only :
  (forall paused dets now g,
      let g' := fst (MainJs.step (MainJs.Tick paused dets now) g) in
      state g' = state g \/ advances (state g) (state g'))
  /\ (forall paused dets now bc mc hs,
         MainJs.step (MainJs.Tick paused dets now) (mkGlobals COMPLETED bc mc hs)
         = (mkGlobals COMPLETED bc mc hs, []))
  /\ (forall g, state (fst (MainJs.step MainJs.RestartClick g)) = BLINK)
  /\ (forall paused video dets now w,
         let g := Capture.vars w in
         let g' := Capture.vars (fst (Capture.step (Capture.Tick paused video dets now) w)) in
         state g' = state g \/ advances (state g) (state g'))
  /\ (forall paused video dets now bc mc hs bf pend,
         let w := Capture.mkWorld (mkGlobals COMPLETED bc mc hs) bf pend in
         Capture.step (Capture.Tick paused video dets now) w = (w, []))
  /\ (forall k encoded w,
         Capture.vars (fst (Capture.step (Capture.BlobReady k encoded) w))
         = Capture.vars w)
  /\ (forall w,
         state (Capture.vars (fst (Capture.step Capture.RestartClick w))) = BLINK).
Proof.
  repeat split.
  - intros. apply mainjs_tick_frame.
  - intros. cbn. unfold MainJs.onTick.
    destruct paused; [reflexivity|]. destruct dets; reflexivity.
  - intros. apply capture_tick_frame.
  - intros. cbn. unfold Capture.onTick.
    destruct paused; [reflexivity|]. destruct dets; reflexivity.
  - intros. cbn. unfold Capture.onBlob.
    destruct (nth_error (Capture.pendingBlobs w) k) as [[img sc]|];
      [destruct encoded|]; reflexivity.
Qed.

(** C7.  A run of the interval callback in which no face was detected
    changes nothing: the state, both counters, the head-turn timestamps
    and, in the capture variant, [bestFace] and the waiting captures are
    as before, and no edge is emitted. *)
Theorem no_face_changes_nothing :
  forall (paused : bool) (video : Capture.Image) (now : Z)
         (g : globals) (w : Capture.world),
    MainJs.step (MainJs.Tick paused [] now) g = (g, [])
    /\ Capture.step (Capture.Tick paused video [] now) w = (w, []).
Proof.
  intros. cbn. unfold MainJs.onTick, Capture.onTick.
  destruct paused; split; reflexivity.
Qed.

(** C9.  The click on the restart button leads to the clean variables
    (state BLINK, both counters 0, both timestamps 0) and, in the capture
    variant, to the initial [bestFace]; a second click right after the
    first changes nothing more.  This holds from every state, COMPLETED
    included. *)
Theorem restart_idempotent :
  forall (g : globals) (w : Capture.world),
    let g1 := fst (MainJs.step MainJs.RestartClick g) in
    let w1 := fst (Capture.step Capture.RestartClick w) in
    g1 = cleanGlobals
    /\ fst (MainJs.step MainJs.RestartClick g1) = g1
    /\ Capture.vars w1 = cleanGlobals
    /\ Capture.bestFace w1 = Capture.initialBestFace
    /\ fst (Capture.step Capture.RestartClick w1) = w1.
Proof.
  intros g w. cbn. repeat split.
Qed.

(** C10.  A run of the interval callback changes the tracker of the
    active challenge at most (the blink counter in BLINK, the mouth
    counter in MOUTH, the two timestamps in SHAKE, nothing otherwise) and
    emits at most the edge of that challenge; so the frame that satisfies a
    challenge leaves the trackers of the other challenges as they were. *)
Theorem one_tracker_per_frame :
  (forall paused dets now g,
      let r := MainJs.onTick paused dets now g in
      othersUntouched g (fst r) /\ ownEdgeOnly g (snd r))
  /\ (forall paused video dets now w,
         let r := Capture.onTick paused video dets now w in
         othersUntouched (Capture.vars w) (Capture.vars (fst r))
         /\ ownEdgeOnly (Capture.vars w) (snd r)).
Proof.
  split; intros.
  - apply mainjs_tick_frame.
  - destruct (capture_tick_frame paused video dets now w) as (_ & H1 & H2 & _).
    split; assumption.
Qed.

(** ** The blink detector *)

Lemma incr_ge_1 (c : N) : (1 <=? Num.incr c)%N = true.
Proof.
  unfold Num.incr. change Num.MAX_SAFE with 9007199254740992%N.
  apply N.leb_le. destruct (c <? 9007199254740992)%N eqn:E.
  - lia.
  - apply N.ltb_ge in E. lia.
Qed.

(** The BLINK branch in terms of the average EAR. *)
Lemma processLiveness_blink (lms : FaceLandmarks) (now : Z) (g : globals)
    (a : float) :
  state g = BLINK -> avgEAR lms = Some a ->
  processLiveness lms now g
  = Some (if (a <? BLINK_THRESHOLD)%float
          then (mkGlobals BLINK (Num.incr (blinkCounter g))
                  (mouthOpenCounter g) (headShakeData g), [])
          else if (1 <=? blinkCounter g)%N
               then (mkGlobals MOUTH 0 (mouthOpenCounter g) (headShakeData g),
                     [BlinkDetected])
               else (mkGlobals BLINK 0 (mouthOpenCounter g) (headShakeData g),
                     [])).
Proof.
  unfold processLiveness, avgEAR, bind. intros ->.
  destruct (getEAR (getLeftEye lms)); [|discriminate].
  destruct (getEAR (getRightEye lms)); [|discriminate].
  intros [= <-]. repeat case_if; reflexivity.
Qed.

(** C4.  In state BLINK, a frame whose average EAR is below 0.30 followed
    by a frame whose average EAR is at least 0.30: the first frame emits
    nothing and keeps the state, the second emits the one "blink" edge,
    moves the state to MOUTH and resets [blinkCounter] to 0. *)
Theorem blink_closed_then_open :
  forall (closedF openF : FaceLandmarks) (now1 now2 : Z) (g : globals),
    state g = BLINK ->
    eyesClosed closedF = true ->
    eyesOpen openF = true ->
    exists g1 g2,
      processLiveness closedF now1 g = Some (g1, [])
      /\ state g1 = BLINK
      /\ processLiveness openF now2 g1 = Some (g2, [BlinkDetected])
      /\ state g2 = MOUTH
      /\ blinkCounter g2 = 0%N
      /\ processFrames [(closedF, now1); (openF, now2)] g = (g2, [BlinkDetected]).
Proof.
  intros closedF openF now1 now2 g Hs Hc Ho.
  unfold eyesClosed in Hc. unfold eyesOpen in Ho.
  destruct (avgEAR closedF) as [a1|] eqn:E1; [|discriminate].
  destruct (avgEAR openF) as [a2|] eqn:E2; [|discriminate].
  apply leb_ltb_false in Ho.
  pose proof (processLiveness_blink closedF now1 g a1 Hs E1) as P1.
  rewrite Hc in P1.
  set (g1 := mkGlobals BLINK (Num.incr (blinkCounter g))
               (mouthOpenCounter g) (headShakeData g)) in *.
  pose proof (processLiveness_blink openF now2 g1 a2 eq_refl E2) as P2.
  rewrite Ho in P2. cbn [blinkCounter g1] in P2. rewrite incr_ge_1 in P2.
  exists g1. eexists. repeat split; try eassumption; try reflexivity.
  cbn [processFrames]. rewrite P1, P2. reflexivity.
Qed.

(** C4 on sample frames: eyes closed (EAR 0.1), then open (EAR 0.4). *)
Lemma blink_closed_then_open_witness :
  exists g1 g2,
    processLiveness Sample.blinking 0 (Sample.inState BLINK) = Some (g1, [])
    /\ state g1 = BLINK
    /\ processLiveness Sample.neutral 50 g1 = Some (g2, [BlinkDetected])
    /\ state g2 = MOUTH
    /\ blinkCounter g2 = 0%N
    /\ processFrames [(Sample.blinking, 0%Z); (Sample.neutral, 50%Z)]
         (Sample.inState BLINK) = (g2, [BlinkDetected]).
Proof.
  apply (blink_closed_then_open Sample.blinking Sample.neutral 0 50
           (Sample.inState BLINK)).
  - reflexivity.
  - vm_compute. reflexivity.
  - vm_compute. reflexivity.
Defined.

(** ** The mouth detector *)

(** The MOUTH branch in terms of the MAR. *)
Lemma processLiveness_mouth (lms : FaceLandmarks) (now : Z) (g : globals)
    (m : float) :
  state g = MOUTH -> getMAR (getMouth lms) = Some m ->
  processLiveness lms now g
  = Some (if Num.gt m MOUTH_OPEN_THRESHOLD
          then (mkGlobals MOUTH (blinkCounter g)
                  (Num.incr (mouthOpenCounter g)) (headShakeData g), [])
          else if (2 <? mouthOpenCounter g)%N
               then (mkGlobals SHAKE (blinkCounter g) 0 (headShakeData g),
                     [MouthOpenDetected])
               else (mkGlobals MOUTH (blinkCounter g) 0 (headShakeData g),
                     [])).
Proof.
  unfold processLiveness, bind. intros -> ->. repeat case_if; reflexivity.
Qed.

(** [n] increments of a counter that starts at 0. *)
Lemma iter_incr (n : nat) :
  Nat.iter n Num.incr 0%N = N.min (N.of_nat n) Num.MAX_SAFE.
Proof.
  change Num.MAX_SAFE with 9007199254740992%N.
  induction n as [|n IH].
  - reflexivity.
  - rewrite Nat.iter_succ, IH. unfold Num.incr.
    change Num.MAX_SAFE with 9007199254740992%N.
    destruct (N.min (N.of_nat n) 9007199254740992 <? 9007199254740992)%N eqn:E.
    + apply N.ltb_lt in E. lia.
    + apply N.ltb_ge in E. lia.
Qed.

Lemma iter_incr_above_2 (n : nat) :
  (2 <? Nat.iter n Num.incr 0%N)%N = negb (n <? 3)%nat.
Proof.
  rewrite iter_incr. change Num.MAX_SAFE with 9007199254740992%N.
  destruct (n <? 3)%nat eqn:E; cbn [negb].
  - apply Nat.ltb_lt in E. apply N.ltb_ge. lia.
  - apply Nat.ltb_ge in E. apply N.ltb_lt. lia.
Qed.

(** A run of frames with the mouth open only counts. *)
Lemma processFrames_open (opens : list (FaceLandmarks * Z)) :
  forall g,
    state g = MOUTH ->
    forallb (fun f => mouthOpen (fst f)) opens = true ->
    processFrames opens g
    = (mkGlobals MOUTH (blinkCounter g)
         (Nat.iter (length opens) Num.incr (mouthOpenCounter g))
         (headShakeData g), []).
Proof.
  induction opens as [|[lms now] rest IH]; intros g Hs Hall.
  - destruct g; cbn in *. subst. reflexivity.
  - cbn [forallb fst] in Hall. apply andb_prop in Hall as [Hopen Hrest].
    unfold mouthOpen in Hopen.
    destruct (getMAR (getMouth lms)) as [m|] eqn:Em; [|discriminate].
    cbn [processFrames]. rewrite (processLiveness_mouth lms now g m Hs Em).
    rewrite Hopen.
    rewrite (IH (mkGlobals MOUTH (blinkCounter g)
                   (Num.incr (mouthOpenCounter g)) (headShakeData g))
               eq_refl Hrest).
    cbn [length blinkCounter mouthOpenCounter headShakeData app].
    rewrite Nat.iter_succ_r. reflexivity.
Qed.

Lemma processFrames_app (fs1 fs2 : list (FaceLandmarks * Z)) :
  forall g,
    processFrames (fs1 ++ fs2) g
    = (fst (processFrames fs2 (fst (processFrames fs1 g))),
       snd (processFrames fs1 g)
         ++ snd (processFrames fs2 (fst (processFrames fs1 g)))).
Proof.
  induction fs1 as [|[lms now] rest IH]; intros g.
  - cbn. destruct (processFrames fs2 g); reflexivity.
  - cbn [app processFrames].
    destruct (processLiveness lms now g) as [[g1 out1]|].
    + rewrite IH. destruct (processFrames rest g1) as [g2 out2]. cbn.
      rewrite app_assoc. reflexivity.
    + apply IH.
Qed.

(** C1, as the code has it.  From state MOUTH with a counter at 0, [n]
    consecutive frames with MAR above 0.30 emit nothing and keep the state;
    the first following frame with MAR at most 0.30 emits nothing when
    [n < 3] (the state stays MOUTH, the counter is back at 0, so the next
    run starts afresh) and emits the one "mouth" edge and moves the state
    to SHAKE when [n >= 3]. *)
Theorem mouth_held_three_frames :
  forall (opens : list (FaceLandmarks * Z)) (shut : FaceLandmarks) (now : Z)
         (g : globals),
    state g = MOUTH ->
    mouthOpenCounter g = 0%N ->
    forallb (fun f => mouthOpen (fst f)) opens = true ->
    mouthShut shut = true ->
    exists g1 g2,
      processFrames opens g = (g1, [])
      /\ state g1 = MOUTH
      /\ processLiveness shut now g1
         = Some (g2, if (length opens <? 3)%nat then [] else [MouthOpenDetected])
      /\ state g2 = (if (length opens <? 3)%nat then MOUTH else SHAKE)
      /\ mouthOpenCounter g2 = 0%N
      /\ processFrames (opens ++ [(shut, now)]) g
         = (g2, if (length opens <? 3)%nat then [] else [MouthOpenDetected]).
Proof.
  intros opens shut now g Hs Hc Hopen Hshut.
  pose proof (processFrames_open opens g Hs Hopen) as Hrun.
  rewrite Hc in Hrun.
  set (g1 := mkGlobals MOUTH (blinkCounter g)
               (Nat.iter (length opens) Num.incr 0%N) (headShakeData g)) in *.
  unfold mouthShut in Hshut.
  destruct (getMAR (getMouth shut)) as [m|] eqn:Em; [|discriminate].
  apply leb_ltb_false in Hshut.
  pose proof (processLiveness_mouth shut now g1 m eq_refl Em) as P.
  unfold Num.gt in P. rewrite Hshut in P.
  cbn [mouthOpenCounter g1] in P. rewrite iter_incr_above_2 in P.
  exists g1.
  destruct (length opens <? 3)%nat eqn:En; cbn [negb] in P;
    eexists; repeat split; try exact P; try exact Hrun; try reflexivity;
    rewrite processFrames_app, Hrun; cbn [fst snd processFrames];
    rewrite P; reflexivity.
Qed.

(** C1 on sample frames: the mouth open (MAR 0.5) for three frames, then
    shut (MAR 0.1). *)
Lemma mouth_held_three_frames_witness :
  exists g1 g2,
    processFrames (repeat (Sample.gaping, 0%Z) 3) (Sample.inState MOUTH) = (g1, [])
    /\ state g1 = MOUTH
    /\ processLiveness Sample.neutral 150 g1 = Some (g2, [MouthOpenDetected])
    /\ state g2 = SHAKE
    /\ mouthOpenCounter g2 = 0%N
    /\ processFrames (repeat (Sample.gaping, 0%Z) 3 ++ [(Sample.neutral, 150%Z)])
         (Sample.inState MOUTH) = (g2, [MouthOpenDetected]).
Proof.
  apply (mouth_held_three_frames (repeat (Sample.gaping, 0%Z) 3)
           Sample.neutral 150 (Sample.inState MOUTH)).
  - reflexivity.
  - reflexivity.
  - vm_compute. reflexivity.
  - vm_compute. reflexivity.
Defined.

(** C1 as stated fails: three consecutive frames with MAR above 0.30,
    fewer than four, followed by a frame with MAR at most 0.30 do emit the
    "mouth" edge and move the state from MOUTH to SHAKE. *)
Lemma mouth_fewer_than_four_refuted :
  let opens := repeat (Sample.gaping, 0%Z) 3 in
  (length opens < 4)%nat
  /\ forallb (fun f => mouthOpen (fst f)) opens = true
  /\ mouthShut Sample.neutral = true
  /\ processFrames (opens ++ [(Sample.neutral, 150%Z)]) (Sample.inState MOUTH)
     = (Sample.inState SHAKE, [MouthOpenDetected]).
Proof.
  cbn zeta. split; [cbn; lia|]. repeat split; vm_compute; reflexivity.
Qed.

(** ** The head-turn detector *)

(** The test of the SHAKE branch, as a proposition. *)
Lemma shake_test_true (l rt : Z) :
  Num.truthy l && Num.truthy rt && (Z.abs (l - rt) <? 2000)%Z = true
  <-> (l <> 0 /\ rt <> 0 /\ Z.abs (l - rt) < 2000)%Z.
Proof.
  unfold Num.truthy.
  rewrite !andb_true_iff, !negb_true_iff, !Z.eqb_neq, Z.ltb_lt. tauto.
Qed.

(** C5.  In state SHAKE, a frame whose nose position is below 0.4 records
    the clock in [left], one whose nose position is above 0.6 records it in
    [right], and a timestamp changes in no other way; after the recording
    the frame emits the "shake" edge and moves the state to COMPLETED
    exactly when both timestamps are non-zero and less than 2000 ms apart,
    and otherwise emits nothing and keeps state and timestamps.  So the
    pairing [left = t], [right = t + 1999] of two recorded (non-zero)
    timestamps fires and the pairing [left = t], [right = t + 2001] does
    not. *)
Theorem shake_window :
  forall (lms : FaceLandmarks) (now : Z) (g : globals) (r : float),
    state g = SHAKE ->
    noseRelX lms = Some r ->
    exists g' out,
      processLiveness lms now g = Some (g', out)
      /\ HeadShake.left (headShakeData g')
         = (if (r <? 0.4)%float then now else HeadShake.left (headShakeData g))
      /\ HeadShake.right (headShakeData g')
         = (if Num.gt r 0.6 then now else HeadShake.right (headShakeData g))
      /\ (out = [ShakeDetected] /\ state g' = COMPLETED
          \/ out = [] /\ state g' = SHAKE)
      /\ (out = [ShakeDetected]
          <-> (HeadShake.left (headShakeData g') <> 0
               /\ HeadShake.right (headShakeData g') <> 0
               /\ Z.abs (HeadShake.left (headShakeData g')
                         - HeadShake.right (headShakeData g')) < 2000)%Z)
      /\ (forall t : Z,
             t <> 0%Z -> (t + 1999 <> 0)%Z ->
             HeadShake.left (headShakeData g') = t ->
             HeadShake.right (headShakeData g') = (t + 1999)%Z ->
             out = [ShakeDetected] /\ state g' = COMPLETED)
      /\ (forall t : Z,
             HeadShake.left (headShakeData g') = t ->
             HeadShake.right (headShakeData g') = (t + 2001)%Z ->
             out = [] /\ state g' = SHAKE).
Proof.
  intros lms now g r Hs Hr.
  unfold processLiveness, bind. rewrite Hs, Hr.
  set (l := if (r <? 0.4)%float then now else HeadShake.left (headShakeData g)).
  set (rt := if Num.gt r 0.6 then now else HeadShake.right (headShakeData g)).
  destruct (Num.truthy l && Num.truthy rt && (Z.abs (l - rt) <? 2000)%Z) eqn:E;
    do 2 eexists; (split; [reflexivity|]); cbn;
    fold l; fold rt; (split; [reflexivity|]); (split; [reflexivity|]).
  - apply shake_test_true in E.
    split; [left; split; reflexivity|].
    split; [split; [intros _; exact E | reflexivity]|].
    split; [intros; split; reflexivity|].
    intros t Hl Hrt. exfalso. lia.
  - assert (Hn : ~ (l <> 0 /\ rt <> 0 /\ Z.abs (l - rt) < 2000)%Z).
    { intros H. apply shake_test_true in H. congruence. }
    split; [right; split; reflexivity|].
    split; [split; [discriminate | intros H; contradiction]|].
    split; [|intros; split; reflexivity].
    intros t Ht0 Ht1 Hl Hrt. exfalso. apply Hn. lia.
Qed.

(** C5 on a sample frame: a look to the left was recorded at some clock
    value, and a look to the right arrives 1999 ms later. *)
Lemma shake_window_witness :
  exists g' out,
    processLiveness Sample.lookRight 1700000001999
      (mkGlobals SHAKE 0 0 (HeadShake.mk 1700000000000 0 0)) = Some (g', out)
    /\ HeadShake.left (headShakeData g') = 1700000000000%Z
    /\ HeadShake.right (headShakeData g') = 1700000001999%Z
    /\ (out = [ShakeDetected] /\ state g' = COMPLETED
        \/ out = [] /\ state g' = SHAKE)
    /\ (out = [ShakeDetected]
        <-> (HeadShake.left (headShakeData g') <> 0
             /\ HeadShake.right (headShakeData g') <> 0
             /\ Z.abs (HeadShake.left (headShakeData g')
                       - HeadShake.right (headShakeData g')) < 2000)%Z)
    /\ (forall t : Z,
           t <> 0%Z -> (t + 1999 <> 0)%Z ->
           HeadShake.left (headShakeData g') = t ->
           HeadShake.right (headShakeData g') = (t + 1999)%Z ->
           out = [ShakeDetected] /\ state g' = COMPLETED)
    /\ (forall t : Z,
           HeadShake.left (headShakeData g') = t ->
           HeadShake.right (headShakeData g') = (t + 2001)%Z ->
           out = [] /\ state g' = SHAKE).
Proof.
  apply (shake_window Sample.lookRight 1700000001999
           (mkGlobals SHAKE 0 0 (HeadShake.mk 1700000000000 0 0))
           0.69999999999999996%float).
  - reflexivity.
  - vm_compute. reflexivity.
Defined.

(** ** Degenerate eye contours in the blink detector *)

(** C2, as the code has it.  [getEAR] has no guard: on an eye contour of
    at least six points whose two corner points coincide it does not throw
    and returns the quotient by zero, [+Infinity] or NaN.  Either value,
    averaged with whatever the other eye gives, fails [avgEAR < 0.30], so
    in state BLINK the frame takes the "eyes open" branch: the call
    returns and [blinkCounter] is 0 after it, on whichever side the
    degenerate eye is. *)
Theorem coincident_corners_count_as_open :
  forall (eye other mouth nose jaw : list point) (now : Z) (g : globals),
    (6 <= length eye)%nat ->
    at_ eye 0 = at_ eye 3 ->
    (6 <= length other)%nat ->
    state g = BLINK ->
    (exists v, getEAR eye = Some v /\ infOrNaN v)
    /\ (exists g' out,
           processLiveness (mkLandmarks eye other mouth nose jaw) now g
           = Some (g', out)
           /\ blinkCounter g' = 0%N)
    /\ (exists g' out,
           processLiveness (mkLandmarks other eye mouth nose jaw) now g
           = Some (g', out)
           /\ blinkCounter g' = 0%N).
Proof.
  intros eye other mouth nose jaw now g Hlen Hsame Hother Hs.
  destruct (getEAR_coincident eye Hlen Hsame) as (v & Hv & Hinf).
  destruct (getEAR_six other Hother) as (o0 & o1 & o2 & o3 & o4 & o5 & _ & _ & Ho).
  set (r := ((dist o1 o5 + dist o2 o4) / (2.0 * dist o0 o3))%float) in Ho.
  destruct (avg_infOrNaN_not_below v r BLINK_THRESHOLD Hinf) as [Hl Hr].
  split; [exists v; split; assumption|].
  split.
  - assert (Ha : avgEAR (mkLandmarks eye other mouth nose jaw)
                 = Some ((v + r) / 2)%float).
    { unfold avgEAR, bind. cbn. rewrite Hv, Ho. reflexivity. }
    rewrite (processLiveness_blink _ now g _ Hs Ha), Hl.
    destruct (1 <=? blinkCounter g)%N; do 2 eexists; split; reflexivity.
  - assert (Ha : avgEAR (mkLandmarks other eye mouth nose jaw)
                 = Some ((r + v) / 2)%float).
    { unfold avgEAR, bind. cbn. rewrite Hv, Ho. reflexivity. }
    rewrite (processLiveness_blink _ now g _ Hs Ha), Hr.
    destruct (1 <=? blinkCounter g)%N; do 2 eexists; split; reflexivity.
Qed.

(** C2 on sample frames: one eye collapsed to a point, the other closed
    (EAR 0.1), after four closed frames. *)
Lemma coincident_corners_count_as_open_witness :
  (exists v, getEAR Sample.collapsedEye = Some v /\ infOrNaN v)
  /\ (exists g' out,
         processLiveness
           (mkLandmarks Sample.collapsedEye (Sample.eye 0.5) (Sample.mouth 0.5)
              (Sample.nose 50) Sample.jaw) 0 (mkGlobals BLINK 4 0 (HeadShake.mk 0 0 0))
         = Some (g', out)
         /\ blinkCounter g' = 0%N)
  /\ (exists g' out,
         processLiveness
           (mkLandmarks (Sample.eye 0.5) Sample.collapsedEye (Sample.mouth 0.5)
              (Sample.nose 50) Sample.jaw) 0 (mkGlobals BLINK 4 0 (HeadShake.mk 0 0 0))
         = Some (g', out)
         /\ blinkCounter g' = 0%N).
Proof.
  apply (coincident_corners_count_as_open Sample.collapsedEye (Sample.eye 0.5)
           (Sample.mouth 0.5) (Sample.nose 50) Sample.jaw 0
           (mkGlobals BLINK 4 0 (HeadShake.mk 0 0 0))).
  - cbn. lia.
  - reflexivity.
  - cbn. lia.
  - reflexivity.
Defined.

(** C2 as stated fails.  An eye contour whose corners are [2^-500]
    apart, a distance above zero and below [Number.EPSILON], gets no
    sentinel: its EAR is 0 and, with both eyes so, the frame increments
    [blinkCounter].  And on a contour whose six points coincide [getEAR]
    returns NaN, a non-finite value handed up to the caller. *)
Lemma no_epsilon_guard :
  (exists c0 c3,
      at_ Sample.thinEye 0 = Some c0 /\ at_ Sample.thinEye 3 = Some c3
      /\ (0 <? dist c0 c3)%float = true
      /\ (dist c0 c3 <? Sample.EPSILON)%float = true)
  /\ getEAR Sample.thinEye = Some 0%float
  /\ processLiveness (Sample.withEyes Sample.thinEye) 0 (Sample.inState BLINK)
     = Some (mkGlobals BLINK 1 0 (HeadShake.mk 0 0 0), [])
  /\ getEAR Sample.collapsedEye = Some nan.
Proof.
  split.
  - do 2 eexists. repeat split; vm_compute; reflexivity.
  - repeat split; vm_compute; reflexivity.
Qed.

(** ** The best-face tracker *)

Lemma captureGuard_states (s : state_t) :
  Capture.captureGuard s = true <-> s = READY \/ s = BLINK \/ s = MOUTH.
Proof.
  destruct s; cbn; split; intros H; try discriminate; try reflexivity; auto;
    destruct H as [H | [H | H]]; discriminate.
Qed.

(** What a frame with a face does to the waiting captures. *)
Lemma capture_tick_pending (video : Capture.Image) (face : detection)
    (rest : list detection) (now : Z) (w : Capture.world) (r : float) :
  noseRelX (Detection.landmarks face) = Some r ->
  Capture.pendingBlobs (fst (Capture.onTick false video (face :: rest) now w))
  = (if Capture.captureGuard (state (Capture.vars w))
        && Capture.isFrontal r
        && Num.gt (Detection.score face)
             (Capture.BestFace.score (Capture.bestFace w))
     then Capture.pendingBlobs w ++ [(video, Detection.score face)]
     else Capture.pendingBlobs w).
Proof.
  intros Hr. unfold Capture.onTick, Capture.captureBestFace, bind.
  rewrite Hr.
  destruct (Capture.captureGuard (state (Capture.vars w))); cbn [andb].
  - destruct (Capture.isFrontal r
              && Num.gt (Detection.score face)
                   (Capture.BestFace.score (Capture.bestFace w)));
      break_match; reflexivity.
  - break_match; reflexivity.
Qed.

(** C3, as the code has it.  On a frame with a face whose nose position
    [r] is defined, the interval callback registers a capture of the
    current video frame, with the frame's score, exactly when the state is
    none of SHAKE, COMPLETED and LOADING (READY, BLINK or MOUTH), the pose
    is strictly inside the band ([0.45 < r < 0.55]) and the score is above
    [bestFace.score]; otherwise it registers nothing.  The frame itself
    never changes [bestFace].  When no other capture is waiting and the
    callback of the registered capture runs next, [bestFace] takes the
    still and the score of that frame, both together, if the callback is
    given a blob, and stays as it is if it is given [null]. *)
Theorem capture_rule :
  forall (video : Capture.Image) (face : detection) (rest : list detection)
         (now : Z) (w : Capture.world) (r : float),
    noseRelX (Detection.landmarks face) = Some r ->
    let w' := fst (Capture.step (Capture.Tick false video (face :: rest) now) w) in
    let requested :=
      Capture.captureGuard (state (Capture.vars w))
      && (Num.gt r 0.45 && (r <? 0.55)%float)
      && Num.gt (Detection.score face)
           (Capture.BestFace.score (Capture.bestFace w)) in
    Capture.bestFace w' = Capture.bestFace w
    /\ Capture.pendingBlobs w'
       = (if requested
          then Capture.pendingBlobs w ++ [(video, Detection.score face)]
          else Capture.pendingBlobs w)
    /\ (Capture.captureGuard (state (Capture.vars w)) = true
        <-> state (Capture.vars w) = READY \/ state (Capture.vars w) = BLINK
            \/ state (Capture.vars w) = MOUTH)
    /\ (Capture.pendingBlobs w = [] -> requested = true ->
        Capture.bestFace (fst (Capture.step (Capture.BlobReady 0 true) w'))
        = Capture.BestFace.mk (Some video) (Detection.score face)
        /\ Capture.bestFace (fst (Capture.step (Capture.BlobReady 0 false) w'))
           = Capture.bestFace w).
Proof.
  intros video face rest now w r Hr. cbn zeta. cbn [Capture.step].
  pose proof (capture_tick_pending video face rest now w r Hr) as Hp.
  unfold Capture.isFrontal in Hp.
  assert (Hb : Capture.bestFace
                 (fst (Capture.onTick false video (face :: rest) now w))
               = Capture.bestFace w) by apply capture_tick_frame.
  split; [exact Hb|]. split; [exact Hp|].
  split; [apply captureGuard_states|].
  intros Hnone Hreq. rewrite Hreq, Hnone in Hp.
  cbn [fst]. unfold Capture.onBlob. rewrite Hp. cbn.
  split; [reflexivity | exact Hb].
Qed.

(** C3 on a sample frame: the first frontal frame of a session, with
    score 0.9, and the two ways its callback can run. *)
Lemma capture_rule_witness :
  let w := Capture.onVideoPlay Capture.initial in
  let face := Detection.mk 0.9 Sample.neutral in
  let w' := fst (Capture.step (Capture.Tick false 7%N [face] 0) w) in
  Capture.bestFace w' = Capture.initialBestFace
  /\ Capture.pendingBlobs w' = [(7%N, 0.9%float)]
  /\ Capture.bestFace (fst (Capture.step (Capture.BlobReady 0 true) w'))
     = Capture.BestFace.mk (Some 7%N) 0.9
  /\ Capture.bestFace (fst (Capture.step (Capture.BlobReady 0 false) w'))
     = Capture.initialBestFace.
Proof.
  cbn zeta.
  pose proof (capture_rule 7%N (Detection.mk 0.9 Sample.neutral) [] 0
                (Capture.onVideoPlay Capture.initial) 0.5%float
                ltac:(vm_compute; reflexivity)) as H.
  cbn zeta in H. destruct H as (Hb & Hp & _ & Hblob).
  split; [exact Hb|]. split; [exact Hp|].
  apply Hblob; reflexivity.
Defined.

(** C3 as stated fails, in three ways.  In state SHAKE a frame with a
    frontal pose and a score above [bestFace.score] registers nothing and
    leaves everything as it was.  In state BLINK a frame whose nose
    position is 0.45, inside the band with its ends included, registers
    nothing either.  And in state BLINK a frame strictly inside the band
    with a better score leaves [bestFace] as it was when the frame has
    been processed; the capture is only registered. *)
Lemma capture_claim_refuted :
  let best := Capture.initialBestFace in
  let inShake := Capture.mkWorld (Sample.inState SHAKE) best [] in
  let inBlink := Capture.mkWorld (Sample.inState BLINK) best [] in
  let ahead := Detection.mk 0.9 Sample.neutral in
  let edge := Detection.mk 0.9 Sample.bandEdge in
  (noseRelX Sample.neutral = Some 0.5%float
   /\ frontalBandOfSpec 0.5 = true
   /\ Num.gt 0.9 (Capture.BestFace.score best) = true
   /\ Capture.step (Capture.Tick false 7%N [ahead] 0) inShake = (inShake, []))
  /\ (noseRelX Sample.bandEdge = Some 0.45%float
      /\ frontalBandOfSpec 0.45 = true
      /\ Capture.step (Capture.Tick false 7%N [edge] 0) inBlink = (inBlink, []))
  /\ Capture.step (Capture.Tick false 7%N [ahead] 0) inBlink
     = (Capture.mkWorld (Sample.inState BLINK) best [(7%N, 0.9%float)], []).
Proof.
  cbn zeta. repeat split; vm_compute; reflexivity.
Qed.

(** ** The score of [bestFace] over a session *)

(** Evidence for C8.  After [onVideoPlay], two frames in state BLINK,
    both strictly frontal, with scores 0.9 and 0.8, arrive before either
    [toBlob] callback has run: both pass the test against the score 0 that
    [bestFace] still has, and when the two callbacks then run in order,
    [bestFace.score] goes from 0 to 0.9 and then down to 0.8, with no
    restart in between. *)
Lemma best_score_decreases :
  let first := Detection.mk 0.9 Sample.neutral in
  let second := Detection.mk 0.8 Sample.neutral in
  Capture.scores
    [Capture.Tick false 1%N [first] 0; Capture.Tick false 2%N [second] 50;
     Capture.BlobReady 0 true; Capture.BlobReady 0 true]
    (Capture.onVideoPlay Capture.initial)
  = [0; 0; 0.9; 0.8]%float
  /\ (0.8 <? 0.9)%float = true.
Proof. cbn zeta. split; vm_compute; reflexivity. Qed.

(** What does hold: a capture registered while no other capture waits,
    whose callback runs next, leaves [bestFace] as it was or raises its
    score. *)
Lemma lone_capture_raises_score (video : Capture.Image) (dets : list detection)
    (now : Z) (encoded : bool) (w : Capture.world) :
  Capture.pendingBlobs w = [] ->
  let w1 := fst (Capture.onTick false video dets now w) in
  let w2 := Capture.onBlob 0 encoded w1 in
  Capture.bestFace w2 = Capture.bestFace w
  \/ Num.gt (Capture.BestFace.score (Capture.bestFace w2))
       (Capture.BestFace.score (Capture.bestFace w)) = true.
Proof.
  intros Hp. cbn zeta.
  pose proof (capture_tick_frame false video dets now w) as (_ & _ & _ & Hb).
  cbn zeta in Hb.
  destruct dets as [|face rest].
  - left. cbn. unfold Capture.onBlob. rewrite Hp. reflexivity.
  - destruct (noseRelX (Detection.landmarks face)) as [r|] eqn:Hr.
    + pose proof (capture_tick_pending video face rest now w r Hr) as Hq.
      rewrite Hp in Hq. unfold Capture.onBlob.
      destruct (Capture.captureGuard (state (Capture.vars w))
                && Capture.isFrontal r
                && Num.gt (Detection.score face)
                     (Capture.BestFace.score (Capture.bestFace w))) eqn:E;
        rewrite Hq; cbn [nth_error app].
      * apply andb_prop in E as [_ E].
        destruct encoded; [right; exact E | left; exact Hb].
      * left. exact Hb.
    + left. unfold Capture.onBlob.
      assert (Hq : Capture.pendingBlobs
                     (fst (Capture.onTick false video (face :: rest) now w)) = []).
      { unfold Capture.onTick, Capture.captureBestFace, bind. rewrite Hr.
        destruct (Capture.captureGuard (state (Capture.vars w))); cbn.
        - exact Hp.
        - unfold processLiveness, bind.
          break_match; cbn; try exact Hp; congruence. }
      rewrite Hq. cbn. exact Hb.
Qed.

(** ** A whole session *)

(** A closed-eyes frame and an open-eyes frame, three open-mouth frames
    and a shut-mouth frame, a look to the left and, half a second later, a
    look to the right: the three edges in order, and COMPLETED. *)
Example whole_session :
  processFrames
    [(Sample.blinking, 0%Z); (Sample.neutral, 50%Z);
     (Sample.gaping, 100%Z); (Sample.gaping, 150%Z); (Sample.gaping, 200%Z);
     (Sample.neutral, 250%Z);
     (Sample.lookLeft, 1000%Z); (Sample.lookRight, 1500%Z)]
    (MainJs.onVideoPlay MainJs.initial)
  = (mkGlobals COMPLETED 0 0 (HeadShake.mk 1000 1500 0),
     [BlinkDetected; MouthOpenDetected; ShakeDetected]).
Proof. vm_compute. reflexivity. Qed.

(** * Further properties of the code *)

(** ** When the geometry helpers throw *)

(** [getEAR] throws exactly on contours of fewer than six points. *)
Lemma getEAR_throws_iff (eye : list point) :
  getEAR eye = None <-> (length eye < 6)%nat.
Proof.
  unfold getEAR, bind.
  destruct (at_ eye 1) eqn:H1; destruct (at_ eye 5) eqn:H5;
    destruct (at_ eye 2) eqn:H2; destruct (at_ eye 4) eqn:H4;
    destruct (at_ eye 0) eqn:H0; destruct (at_ eye 3) eqn:H3;
    reads_to_bounds; split; intros Hthrow; try discriminate; try reflexivity;
    first [lia | exfalso; lia].
Qed.

(** [getMAR] throws exactly on mouths of fewer than ten points. *)
Lemma getMAR_throws_iff (mouth : list point) :
  getMAR mouth = None <-> (length mouth < 10)%nat.
Proof.
  unfold getMAR, bind.
  destruct (at_ mouth 3) eqn:H3; destruct (at_ mouth 9) eqn:H9;
    destruct (at_ mouth 0) eqn:H0; destruct (at_ mouth 6) eqn:H6;
    reads_to_bounds; split; intros Hthrow; try discriminate; try reflexivity;
    first [lia | exfalso; lia].
Qed.

(** The nose ratio throws exactly when the jaw outline has fewer than
    seventeen points or the nose ridge fewer than four. *)
Lemma noseRelX_throws_iff (lms : FaceLandmarks) :
  noseRelX lms = None
  <-> (length (getJawOutline lms) < 17)%nat \/ (length (getNose lms) < 4)%nat.
Proof.
  unfold noseRelX, bind.
  destruct (at_ (getJawOutline lms) 0) eqn:H0;
    destruct (at_ (getJawOutline lms) 16) eqn:H16;
    destruct (at_ (getNose lms) 3) eqn:H3;
    reads_to_bounds; split; intros Hthrow; try discriminate; try reflexivity;
    first [lia | exfalso; lia].
Qed.

(** X1.  The three ratios throw on short landmark groups and on nothing
    else: [getEAR] exactly on contours of fewer than six points, [getMAR]
    exactly on mouths of fewer than ten points, the nose ratio exactly
    when the jaw outline has fewer than seventeen points or the nose ridge
    fewer than four. *)
Theorem ratios_throw_iff :
  forall (eye mouth : list point) (lms : FaceLandmarks),
    (getEAR eye = None <-> (length eye < 6)%nat)
    /\ (getMAR mouth = None <-> (length mouth < 10)%nat)
    /\ (noseRelX lms = None
        <-> (length (getJawOutline lms) < 17)%nat
            \/ (length (getNose lms) < 4)%nat).
Proof.
  intros eye mouth lms. split; [apply getEAR_throws_iff|].
  split; [apply getMAR_throws_iff | apply noseRelX_throws_iff].
Qed.

(** X2.  [processLiveness] throws exactly when a landmark group that the
    active challenge reads is too short: an eye contour in BLINK, the
    mouth in MOUTH, the jaw outline or the nose ridge in SHAKE, and never
    in the other states.  A short group that the active challenge does not
    read is harmless.  When it throws, the interval callback of [main.js]
    leaves every variable as it was and emits nothing. *)
Theorem processLiveness_throws_iff :
  forall (face : detection) (rest : list detection) (now : Z) (g : globals),
    (processLiveness (Detection.landmarks face) now g = None
     <-> unreadable (Detection.landmarks face) (state g))
    /\ (processLiveness (Detection.landmarks face) now g = None
        -> MainJs.step (MainJs.Tick false (face :: rest) now) g = (g, [])).
Proof.
  intros face rest now g. split.
  - unfold processLiveness, unreadable, bind.
    destruct (state g).
    + split; [discriminate | contradiction].
    + split; [discriminate | contradiction].
    + rewrite <- (getEAR_throws_iff (getLeftEye (Detection.landmarks face))).
      rewrite <- (getEAR_throws_iff (getRightEye (Detection.landmarks face))).
      destruct (getEAR (getLeftEye (Detection.landmarks face)));
        destruct (getEAR (getRightEye (Detection.landmarks face)));
        repeat case_if; split; intros H; try discriminate; try reflexivity;
        try tauto; destruct H; discriminate.
    + rewrite <- (getMAR_throws_iff (getMouth (Detection.landmarks face))).
      destruct (getMAR (getMouth (Detection.landmarks face)));
        repeat case_if; split; intros H; try discriminate; try reflexivity;
        tauto.
    + rewrite <- (noseRelX_throws_iff (Detection.landmarks face)).
      destruct (noseRelX (Detection.landmarks face));
        repeat case_if; split; intros H; try discriminate; try reflexivity;
        tauto.
    + split; [discriminate | contradiction].
  - intros H. cbn. unfold MainJs.onTick. rewrite H. reflexivity.
Qed.

(** X2 on a sample: five-point eye contours, read in BLINK only. *)
Lemma processLiveness_throws_iff_witness :
  (processLiveness Sample2.shortEyes 0 (Sample.inState BLINK) = None
   <-> unreadable Sample2.shortEyes BLINK)
  /\ MainJs.step (MainJs.Tick false [Detection.mk 0.9 Sample2.shortEyes] 0)
       (Sample.inState BLINK)
     = (Sample.inState BLINK, []).
Proof.
  destruct (processLiveness_throws_iff (Detection.mk 0.9 Sample2.shortEyes) []
              0 (Sample.inState BLINK)) as [Hiff Hdrop].
  split; [exact Hiff | apply Hdrop; reflexivity].
Defined.

(** ** The values of the geometry helpers *)

Lemma binary_round_aux_abs (s s' : bool) (m e : Z) (l : location) :
  SFabs (binary_round_aux prec emax s m e l)
  = SFabs (binary_round_aux prec emax s' m e l).
Proof.
  unfold binary_round_aux.
  destruct (shr_fexp prec emax m e l) as [mrs' e'].
  destruct (shr_fexp prec emax _ e' loc_Exact) as [mrs'' e''].
  destruct (shr_m mrs''); cbn; trivial.
  case_if; reflexivity.
Qed.

Lemma binary_round_abs (s s' : bool) (m : positive) (e : Z) :
  SFabs (binary_round prec emax s m e) = SFabs (binary_round prec emax s' m e).
Proof.
  unfold binary_round. destruct (shl_align m e _) as [mz ez].
  apply binary_round_aux_abs.
Qed.

Lemma binary_normalize_opp_abs (n e : Z) :
  SFabs (binary_normalize prec emax (- n) e false)
  = SFabs (binary_normalize prec emax n e false).
Proof.
  destruct n; cbn [Z.opp binary_normalize]; try reflexivity;
    apply binary_round_abs.
Qed.

(** [a - b] and [b - a] have the same magnitude. *)
Lemma SFsub_swap_abs (a b : spec_float) :
  SFabs (SF64sub a b) = SFabs (SF64sub b a).
Proof.
  destruct a as [sa|sa| |sa ma ea], b as [sb|sb| |sb mb eb];
    try reflexivity;
    try (destruct sa; try destruct sb; reflexivity);
    try (destruct sb; reflexivity).
  unfold SF64sub, SFsub. rewrite (Z.min_comm eb ea).
  set (ez := Z.min ea eb).
  set (X := cond_Zopp sa (Z.pos (fst (shl_align ma ea ez)))).
  set (Y := cond_Zopp sb (Z.pos (fst (shl_align mb eb ez)))).
  replace (Y - X)%Z with (- (X - Y))%Z by lia.
  symmetry. apply binary_normalize_opp_abs.
Qed.

(** A square depends on the magnitude only. *)
Lemma SFmul_self_abs (a b : spec_float) :
  SFabs a = SFabs b -> SF64mul a a = SF64mul b b.
Proof.
  destruct a as [sa|sa| |sa ma ea], b as [sb|sb| |sb mb eb]; cbn;
    try discriminate; try reflexivity;
    rewrite ?xorb_nilpotent; try reflexivity.
  intros [= -> ->]. reflexivity.
Qed.

(** X3.  [dist] is symmetric, on every pair of points: whatever the
    coordinates, infinities and NaN included, [dist(p, q)] and [dist(q, p)]
    are the same number. *)
Theorem dist_symmetric (p q : point) : dist p q = dist q p.
Proof.
  apply Prim2SF_inj. unfold dist, Num.pow2.
  rewrite !sqrt_spec, !add_spec, !mul_spec, !sub_spec.
  rewrite (SFmul_self_abs _ _
             (SFsub_swap_abs (Prim2SF (Point.x p)) (Prim2SF (Point.x q)))).
  rewrite (SFmul_self_abs _ _
             (SFsub_swap_abs (Prim2SF (Point.y p)) (Prim2SF (Point.y q)))).
  reflexivity.
Qed.

Lemma SFmul_nonneg (a b : spec_float) :
  sf_nonneg a -> sf_nonneg b -> sf_nonneg (SF64mul a b).
Proof.
  destruct a as [sa|sa| |sa ma ea], b as [sb|sb| |sb mb eb]; cbn;
    intros Ha Hb; subst; cbn; trivial.
  apply (binary_round_aux_sign false).
Qed.

Lemma SFdiv_nonneg (a b : spec_float) :
  sf_nonneg a -> sf_nonneg b -> sf_nonneg (SF64div a b).
Proof.
  destruct a as [sa|sa| |sa ma ea], b as [sb|sb| |sb mb eb]; cbn;
    intros Ha Hb; subst; cbn; trivial.
  destruct (SFdiv_core_binary prec emax (Z.pos ma) ea (Z.pos mb) eb)
    as [[mz ez] lz].
  apply (binary_round_aux_sign false).
Qed.

Lemma nonneg_not_below_zero (v : float) :
  sf_nonneg (Prim2SF v) -> (v <? 0)%float = false.
Proof.
  rewrite ltb_spec. change (Prim2SF 0) with (S754_zero false).
  destruct (Prim2SF v) as [s|s| |s m e]; cbn; intros H; subst; reflexivity.
Qed.

(** A mouth of at least ten points never makes [getMAR] throw. *)
Lemma getMAR_ten (mouth : list point) :
  (10 <= length mouth)%nat ->
  exists p0 p3 p6 p9,
    at_ mouth 0 = Some p0 /\ at_ mouth 6 = Some p6 /\
    getMAR mouth = Some (dist p3 p9 / dist p0 p6)%float.
Proof.
  destruct mouth as [|p0 [|p1 [|p2 [|p3 [|p4 [|p5 [|p6 [|p7 [|p8 [|p9 rest]]]]]]]]]];
    cbn; try lia.
  intros _. exists p0, p3, p6, p9. repeat split.
Qed.

Lemma getEAR_defined_length (eye : list point) (v : float) :
  getEAR eye = Some v -> (6 <= length eye)%nat.
Proof.
  destruct eye as [|e0 [|e1 [|e2 [|e3 [|e4 [|e5 rest]]]]]]; cbn;
    try discriminate. intros _. lia.
Qed.

Lemma getMAR_defined_length (mouth : list point) (v : float) :
  getMAR mouth = Some v -> (10 <= length mouth)%nat.
Proof.
  destruct mouth as [|p0 [|p1 [|p2 [|p3 [|p4 [|p5 [|p6 [|p7 [|p8 [|p9 rest]]]]]]]]]];
    cbn; try discriminate. intros _. lia.
Qed.

(** X4.  Neither ratio is ever negative: whenever [getEAR] and [getMAR]
    return, the value is [+0], a positive number, [+Infinity] or NaN, so
    it never compares below zero. *)
Theorem ratios_never_negative :
  forall (eye mouth : list point) (ear mar : float),
    getEAR eye = Some ear ->
    getMAR mouth = Some mar ->
    sf_nonneg (Prim2SF ear) /\ (ear <? 0)%float = false
    /\ sf_nonneg (Prim2SF mar) /\ (mar <? 0)%float = false.
Proof.
  intros eye mouth ear mar He Hm.
  assert (Hear : sf_nonneg (Prim2SF ear)).
  { destruct (getEAR_six eye (getEAR_defined_length eye ear He))
      as (e0 & e1 & e2 & e3 & e4 & e5 & _ & _ & E).
    rewrite E in He. injection He as <-.
    rewrite div_spec, add_spec, mul_spec.
    apply SFdiv_nonneg.
    - apply SFadd_nonneg; apply dist_nonneg.
    - apply SFmul_nonneg; [reflexivity | apply dist_nonneg]. }
  assert (Hmar : sf_nonneg (Prim2SF mar)).
  { destruct (getMAR_ten mouth (getMAR_defined_length mouth mar Hm))
      as (p0 & p3 & p6 & p9 & _ & _ & E).
    rewrite E in Hm. injection Hm as <-.
    rewrite div_spec. apply SFdiv_nonneg; apply dist_nonneg. }
  repeat split; try assumption; apply nonneg_not_below_zero; assumption.
Qed.

(** X4 on the sample face. *)
Lemma ratios_never_negative_witness :
  sf_nonneg (Prim2SF 0.40000000000000002) /\ (0.40000000000000002 <? 0)%float = false
  /\ sf_nonneg (Prim2SF 0.5) /\ (0.5 <? 0)%float = false.
Proof.
  apply (ratios_never_negative (Sample.eye 2) (Sample.mouth 2.5)).
  - vm_compute. reflexivity.
  - vm_compute. reflexivity.
Defined.

(** ** Degenerate mouths and jaws *)

(** X5.  [getMAR] has no guard either.  On a mouth of at least ten points
    whose two corners coincide it returns [+Infinity], and the frame then
    counts as "mouth open", or NaN, and the frame then counts as not
    open. *)
Theorem collapsed_mouth_width :
  forall lms : FaceLandmarks,
    (10 <= length (getMouth lms))%nat ->
    at_ (getMouth lms) 0 = at_ (getMouth lms) 6 ->
    exists v,
      getMAR (getMouth lms) = Some v
      /\ (v = infinity /\ mouthOpen lms = true
          \/ v = nan /\ mouthOpen lms = false).
Proof.
  intros lms Hlen Hsame.
  destruct (getMAR_ten _ Hlen) as (p0 & p3 & p6 & p9 & H0 & H6 & E).
  assert (p6 = p0) as -> by congruence.
  exists (dist p3 p9 / dist p0 p0)%float. split; [exact E|].
  assert (Hv : infOrNaN (dist p3 p9 / dist p0 p0)%float).
  { apply infOrNaN_of_spec. rewrite div_spec.
    apply SFdiv_by_zero_or_nan; [apply dist_nonneg | apply dist_same]. }
  unfold mouthOpen. rewrite E.
  destruct Hv as [-> | ->]; [left | right]; split; reflexivity.
Qed.

(** X5 on a sample: corners at the same point, lips 4 apart. *)
Lemma collapsed_mouth_width_witness :
  exists v,
    getMAR (getMouth Sample2.pinched) = Some v
    /\ (v = infinity /\ mouthOpen Sample2.pinched = true
        \/ v = nan /\ mouthOpen Sample2.pinched = false).
Proof.
  apply (collapsed_mouth_width Sample2.pinched).
  - cbn. lia.
  - reflexivity.
Defined.

(** Dividing anything by [+0] or by NaN. *)
Lemma SFdiv_any_by_zero_or_nan (n d : spec_float) :
  d = S754_zero false \/ d = S754_nan ->
  SF64div n d = S754_infinity false \/ SF64div n d = S754_infinity true
  \/ SF64div n d = S754_nan.
Proof.
  intros [-> | ->]; destruct n as [s|s| |s m e]; try destruct s; cbn; auto.
Qed.

(** X6.  The nose ratio has no guard.  When the two jaw extremes have the
    same abscissa, the ratio is an infinity or NaN, the pose is never
    frontal, and [captureBestFace] registers nothing. *)
Theorem flat_jaw_never_captured :
  forall (video : Capture.Image) (d : detection) (w : Capture.world)
         (j0 j16 : point) (r : float),
    at_ (getJawOutline (Detection.landmarks d)) 0 = Some j0 ->
    at_ (getJawOutline (Detection.landmarks d)) 16 = Some j16 ->
    Point.x j0 = Point.x j16 ->
    noseRelX (Detection.landmarks d) = Some r ->
    (r = infinity \/ r = neg_infinity \/ r = nan)
    /\ Capture.isFrontal r = false
    /\ Capture.captureBestFace video d w = Some w.
Proof.
  intros video d w j0 j16 r H0 H16 Hx Hr.
  assert (Hcases : Prim2SF r = S754_infinity false
                   \/ Prim2SF r = S754_infinity true \/ Prim2SF r = S754_nan).
  { revert Hr. unfold noseRelX, bind. rewrite H0, H16.
    destruct (at_ (getNose (Detection.landmarks d)) 3) as [tip|];
      [|discriminate].
    intros [= <-]. rewrite div_spec, (sub_spec (Point.x j16)), Hx.
    apply SFdiv_any_by_zero_or_nan, SFsub_diag. }
  assert (Hr' : r = infinity \/ r = neg_infinity \/ r = nan).
  { destruct Hcases as [H | [H | H]]; [left | right; left | right; right];
      apply Prim2SF_inj; rewrite H; reflexivity. }
  assert (Hf : Capture.isFrontal r = false).
  { destruct Hr' as [-> | [-> | ->]]; reflexivity. }
  split; [exact Hr'|]. split; [exact Hf|].
  unfold Capture.captureBestFace, bind. rewrite Hr, Hf. reflexivity.
Qed.

(** X6 on a sample: both jaw extremes at abscissa 40, the nose at 50. *)
Lemma flat_jaw_never_captured_witness :
  (infinity = infinity \/ infinity = neg_infinity \/ infinity = nan)
  /\ Capture.isFrontal infinity = false
  /\ Capture.captureBestFace 7%N (Detection.mk 0.9 Sample2.flat)
       (Capture.onVideoPlay Capture.initial)
     = Some (Capture.onVideoPlay Capture.initial).
Proof.
  apply (flat_jaw_never_captured 7%N (Detection.mk 0.9 Sample2.flat)
           (Capture.onVideoPlay Capture.initial)
           (Sample.pt 40 0) (Sample.pt 40 10) infinity).
  - reflexivity.
  - reflexivity.
  - reflexivity.
  - vm_compute. reflexivity.
Defined.

(** ** How fast a session can go *)

Lemma truthy_false (t : Z) : Num.truthy t = false <-> t = 0%Z.
Proof.
  unfold Num.truthy. rewrite negb_false_iff. apply Z.eqb_eq.
Qed.

(** One frame keeps the trackers of the inactive challenges clean and
    adds at most one to the progress. *)
Lemma processLiveness_progress (lms : FaceLandmarks) (now : Z)
    (g g' : globals) (out : list edge) :
  otherTrackersClean g ->
  processLiveness lms now g = Some (g', out) ->
  otherTrackersClean g' /\ (progress g' <= progress g + 1)%nat.
Proof.
  intros Hclean E. destruct g as [s bc mc hs].
  unfold processLiveness, bind in E. cbn in E.
  unfold otherTrackersClean in Hclean. cbn in Hclean.
  destruct s; try contradiction.
  - (* BLINK *)
    destruct Hclean as [-> ->].
    break_match_in E; try discriminate; injection E as <- <-;
      unfold otherTrackersClean, progress; cbn; (split; [tauto|]).
    + destruct (bc =? 0)%N; destruct (Num.incr bc =? 0)%N; lia.
    + match goal with H : (1 <=? bc)%N = true |- _ => apply N.leb_le in H end.
      destruct (bc =? 0)%N eqn:Hz; [apply N.eqb_eq in Hz; lia | lia].
    + destruct (bc =? 0)%N; lia.
  - (* MOUTH *)
    destruct Hclean as [-> ->].
    break_match_in E; try discriminate; injection E as <- <-;
      unfold otherTrackersClean, progress; cbn; (split; [tauto|]).
    + unfold Num.incr. change Num.MAX_SAFE with 9007199254740992%N.
      destruct (mc <? 9007199254740992)%N; lia.
    + match goal with H : (2 <? mc)%N = true |- _ => apply N.ltb_lt in H end.
      lia.
    + lia.
  - (* SHAKE *)
    destruct Hclean as [-> ->]. destruct hs as [l0 r0 x0]. cbn in E.
    destruct (noseRelX lms) as [r|]; [|discriminate].
    unfold Num.gt in E.
    destruct (r <? 0.4)%float eqn:Hl; destruct (0.6 <? r)%float eqn:Hr;
      try (exfalso; exact (look_left_right_exclusive r Hl Hr));
      break_match_in E; injection E as <- <-;
      unfold otherTrackersClean, progress; cbn; (split; [tauto|]);
      repeat match goal with
        | H : _ && _ = true |- _ => apply andb_prop in H as [? ?]
        end;
      repeat match goal with
        | H : Num.truthy _ = true |- _ => rewrite H
        end;
      cbn; try lia;
      repeat case_if; lia.
  - (* COMPLETED *)
    injection E as <- <-. split; [exact Hclean | cbn; lia].
Qed.

(** Over a sequence of frames the progress grows by at most the number
    of frames. *)
Lemma processFrames_progress (fs : list (FaceLandmarks * Z)) :
  forall (g g' : globals) (out : list edge),
    otherTrackersClean g ->
    processFrames fs g = (g', out) ->
    otherTrackersClean g' /\ (progress g' <= progress g + length fs)%nat.
Proof.
  induction fs as [|[lms now] rest IH]; intros g g' out Hclean E.
  - cbn in E. injection E as <- <-. split; [exact Hclean | cbn; lia].
  - cbn [processFrames] in E.
    destruct (processLiveness lms now g) as [[g1 out1]|] eqn:E1.
    + destruct (processLiveness_progress lms now g g1 out1 Hclean E1)
        as [Hc1 Hp1].
      destruct (processFrames rest g1) as [g2 out2] eqn:E2.
      injection E as <- <-.
      destruct (IH g1 g2 out2 Hc1 E2) as [Hc2 Hp2].
      split; [exact Hc2 | cbn [length]; lia].
    + destruct (IH g g' out Hclean E) as [Hc2 Hp2].
      split; [exact Hc2 | cbn [length]; lia].
Qed.

(** X7.  No session completes in fewer than eight frames with a face:
    starting from the variables that [onVideoPlay] (or a restart) leaves,
    a sequence of frames that ends in COMPLETED has at least eight
    frames. *)
Theorem no_session_under_eight_frames :
  forall (fs : list (FaceLandmarks * Z)) (g' : globals) (out : list edge),
    processFrames fs (MainJs.onVideoPlay MainJs.initial) = (g', out) ->
    state g' = COMPLETED ->
    (8 <= length fs)%nat.
Proof.
  intros fs g' out E Hdone.
  assert (Hstart : otherTrackersClean (MainJs.onVideoPlay MainJs.initial))
    by (cbn; split; reflexivity).
  destruct (processFrames_progress fs _ g' out Hstart E) as [_ Hp].
  unfold progress in Hp at 1. rewrite Hdone in Hp. cbn in Hp. exact Hp.
Qed.

(** X7 on the eight frames of the whole session above. *)
Lemma no_session_under_eight_frames_witness :
  (8 <= length
          [(Sample.blinking, 0%Z); (Sample.neutral, 50%Z);
           (Sample.gaping, 100%Z); (Sample.gaping, 150%Z);
           (Sample.gaping, 200%Z); (Sample.neutral, 250%Z);
           (Sample.lookLeft, 1000%Z); (Sample.lookRight, 1500%Z)])%nat.
Proof.
  apply (no_session_under_eight_frames _
           (mkGlobals COMPLETED 0 0 (HeadShake.mk 1000 1500 0))
           [BlinkDetected; MouthOpenDetected; ShakeDetected]).
  - vm_compute. reflexivity.
  - reflexivity.
Defined.

(** ** The head turn in either order *)

(** The SHAKE branch in terms of the nose ratio. *)
Lemma processLiveness_shake (lms : FaceLandmarks) (now : Z) (g : globals)
    (r : float) :
  state g = SHAKE -> noseRelX lms = Some r ->
  processLiveness lms now g
  = (let l := if (r <? 0.4)%float then now
              else HeadShake.left (headShakeData g) in
     let rt := if (0.6 <? r)%float then now
               else HeadShake.right (headShakeData g) in
     let hs' := HeadShake.mk l rt (HeadShake.lastX (headShakeData g)) in
     if Num.truthy l && Num.truthy rt && (Z.abs (l - rt) <? 2000)%Z
     then Some (mkGlobals COMPLETED (blinkCounter g) (mouthOpenCounter g) hs',
                [ShakeDetected])
     else Some (mkGlobals SHAKE (blinkCounter g) (mouthOpenCounter g) hs', [])).
Proof.
  unfold processLiveness, bind, Num.gt. intros -> ->. reflexivity.
Qed.

Lemma not_left_when_right (r : float) :
  (0.6 <? r)%float = true -> (r <? 0.4)%float = false.
Proof.
  intros Hr. destruct (r <? 0.4)%float eqn:Hl; [|reflexivity].
  exfalso. exact (look_left_right_exclusive r Hl Hr).
Qed.

Lemma not_right_when_left (r : float) :
  (r <? 0.4)%float = true -> (0.6 <? r)%float = false.
Proof.
  intros Hl. destruct (0.6 <? r)%float eqn:Hr; [|reflexivity].
  exfalso. exact (look_left_right_exclusive r Hl Hr).
Qed.

(** X8.  The head turn is accepted in either order.  From state SHAKE
    with no look recorded yet, two frames that look to opposite sides, in
    whichever order, at non-zero clock values less than 2000 ms apart:
    the first frame emits nothing, the second emits the "shake" edge and
    the state is COMPLETED. *)
Theorem head_turn_either_order :
  forall (a b : FaceLandmarks) (ta tb : Z) (g : globals) (ra rb : float),
    state g = SHAKE ->
    HeadShake.left (headShakeData g) = 0%Z ->
    HeadShake.right (headShakeData g) = 0%Z ->
    noseRelX a = Some ra ->
    noseRelX b = Some rb ->
    ((ra <? 0.4)%float = true /\ (0.6 <? rb)%float = true)
    \/ ((0.6 <? ra)%float = true /\ (rb <? 0.4)%float = true) ->
    ta <> 0%Z -> tb <> 0%Z -> (Z.abs (ta - tb) < 2000)%Z ->
    exists g1 g2,
      processLiveness a ta g = Some (g1, [])
      /\ state g1 = SHAKE
      /\ processLiveness b tb g1 = Some (g2, [ShakeDetected])
      /\ state g2 = COMPLETED.
Proof.
  intros a b ta tb g ra rb Hs Hl0 Hr0 Ha Hb Hsides Hta Htb Hwin.
  assert (Hta' : Num.truthy ta = true)
    by (unfold Num.truthy; apply negb_true_iff, Z.eqb_neq; exact Hta).
  assert (Htb' : Num.truthy tb = true)
    by (unfold Num.truthy; apply negb_true_iff, Z.eqb_neq; exact Htb).
  assert (Hwin1 : (Z.abs (ta - tb) <? 2000)%Z = true) by (apply Z.ltb_lt; lia).
  assert (Hwin2 : (Z.abs (tb - ta) <? 2000)%Z = true) by (apply Z.ltb_lt; lia).
  pose proof (processLiveness_shake a ta g ra Hs Ha) as Pa. cbn zeta in Pa.
  rewrite Hl0, Hr0 in Pa.
  destruct Hsides as [[Hla Hrb] | [Hra Hlb]].
  - rewrite Hla, (not_right_when_left ra Hla), Hta' in Pa.
    cbn [Num.truthy Z.eqb negb andb] in Pa.
    set (g1 := mkGlobals SHAKE (blinkCounter g) (mouthOpenCounter g)
                 (HeadShake.mk ta 0 (HeadShake.lastX (headShakeData g)))) in *.
    pose proof (processLiveness_shake b tb g1 rb eq_refl Hb) as Pb.
    cbn zeta in Pb. cbn [g1 headShakeData HeadShake.left HeadShake.right] in Pb.
    rewrite Hrb, (not_left_when_right rb Hrb), Hta', Htb', Hwin1 in Pb.
    exists g1. eexists. repeat split; [exact Pa | exact Pb | reflexivity].
  - rewrite Hra, (not_left_when_right ra Hra), Hta' in Pa.
    cbn [Num.truthy Z.eqb negb andb] in Pa.
    set (g1 := mkGlobals SHAKE (blinkCounter g) (mouthOpenCounter g)
                 (HeadShake.mk 0 ta (HeadShake.lastX (headShakeData g)))) in *.
    pose proof (processLiveness_shake b tb g1 rb eq_refl Hb) as Pb.
    cbn zeta in Pb. cbn [g1 headShakeData HeadShake.left HeadShake.right] in Pb.
    rewrite Hlb, (not_right_when_left rb Hlb), Hta', Htb', Hwin2 in Pb.
    exists g1. eexists. repeat split; [exact Pa | exact Pb | reflexivity].
Qed.

(** X8 on sample frames: a look to the right, then one to the left. *)
Lemma head_turn_either_order_witness :
  exists g1 g2,
    processLiveness Sample.lookRight 1000 (Sample.inState SHAKE) = Some (g1, [])
    /\ state g1 = SHAKE
    /\ processLiveness Sample.lookLeft 1500 g1 = Some (g2, [ShakeDetected])
    /\ state g2 = COMPLETED.
Proof.
  apply (head_turn_either_order Sample.lookRight Sample.lookLeft 1000 1500
           (Sample.inState SHAKE) 0.69999999999999996 0.29999999999999999).
  - reflexivity.
  - reflexivity.
  - reflexivity.
  - vm_compute. reflexivity.
  - vm_compute. reflexivity.
  - right. split; vm_compute; reflexivity.
  - discriminate.
  - discriminate.
  - cbn. lia.
Defined.

(** ** Short openings of the mouth *)

Lemma openRun3_tail (f : FaceLandmarks * Z) (rest : list (FaceLandmarks * Z)) :
  openRun3 (f :: rest) = false ->
  (leadingOpen (f :: rest) < 3)%nat /\ openRun3 rest = false.
Proof.
  cbn [openRun3]. intros H. apply orb_false_elim in H as [H1 H2].
  apply Nat.leb_gt in H1. split; assumption.
Qed.

Lemma openRun3_leading (fs : list (FaceLandmarks * Z)) :
  openRun3 fs = false -> (leadingOpen fs < 3)%nat.
Proof.
  destruct fs as [|f rest]; [cbn; lia|].
  intros H. apply (openRun3_tail f rest H).
Qed.

(** With the counter at [c] and fewer than [3 - c] open frames ahead of
    the next frame that is not open, nothing is emitted. *)
Lemma processFrames_no_run (fs : list (FaceLandmarks * Z)) :
  forall g,
    state g = MOUTH ->
    forallb (fun f => marDefined (fst f)) fs = true ->
    openRun3 fs = false ->
    (N.to_nat (mouthOpenCounter g) + leadingOpen fs < 3)%nat ->
    exists g', processFrames fs g = (g', []) /\ state g' = MOUTH.
Proof.
  induction fs as [|[lms now] rest IH]; intros g Hs Hdef Hrun Hlead.
  - exists g. split; [reflexivity | exact Hs].
  - cbn [forallb fst] in Hdef. apply andb_prop in Hdef as [Hd Hdrest].
    unfold marDefined in Hd.
    destruct (getMAR (getMouth lms)) as [m|] eqn:Em; [|discriminate].
    destruct (openRun3_tail _ _ Hrun) as [_ Hrest].
    cbn [processFrames]. rewrite (processLiveness_mouth lms now g m Hs Em).
    cbn [leadingOpen] in Hlead. unfold mouthOpen in Hlead. rewrite Em in Hlead.
    destruct (Num.gt m MOUTH_OPEN_THRESHOLD) eqn:Hopen.
    + destruct (IH (mkGlobals MOUTH (blinkCounter g)
                      (Num.incr (mouthOpenCounter g)) (headShakeData g))
                  eq_refl Hdrest Hrest) as (g' & E & Hs').
      * cbn [mouthOpenCounter]. unfold Num.incr.
        change Num.MAX_SAFE with 9007199254740992%N.
        destruct (mouthOpenCounter g <? 9007199254740992)%N; lia.
      * exists g'. rewrite E. split; [reflexivity | exact Hs'].
    + assert (Hlow : (2 <? mouthOpenCounter g)%N = false)
        by (apply N.ltb_ge; lia).
      rewrite Hlow.
      destruct (IH (mkGlobals MOUTH (blinkCounter g) 0 (headShakeData g))
                  eq_refl Hdrest Hrest) as (g' & E & Hs').
      * cbn [mouthOpenCounter]. pose proof (openRun3_leading rest Hrest). lia.
      * exists g'. rewrite E. split; [reflexivity | exact Hs'].
Qed.

(** X9.  Short openings never satisfy the mouth challenge.  From state
    MOUTH with the counter at 0, a sequence of frames with a defined MAR
    in which no three consecutive frames all have the mouth open emits no
    edge and leaves the state at MOUTH, however long it is. *)
Theorem short_openings_never_count :
  forall (fs : list (FaceLandmarks * Z)) (g : globals),
    state g = MOUTH ->
    mouthOpenCounter g = 0%N ->
    forallb (fun f => marDefined (fst f)) fs = true ->
    openRun3 fs = false ->
    exists g', processFrames fs g = (g', []) /\ state g' = MOUTH.
Proof.
  intros fs g Hs Hc Hdef Hrun.
  apply processFrames_no_run; try assumption.
  rewrite Hc. pose proof (openRun3_leading fs Hrun). cbn. lia.
Qed.

(** X9 on sample frames: open, open, shut, three times over. *)
Lemma short_openings_never_count_witness :
  exists g',
    processFrames
      (concat (repeat [(Sample.gaping, 0%Z); (Sample.gaping, 50%Z);
                       (Sample.neutral, 100%Z)] 3))
      (Sample.inState MOUTH) = (g', [])
    /\ state g' = MOUTH.
Proof.
  apply (short_openings_never_count
           (concat (repeat [(Sample.gaping, 0%Z); (Sample.gaping, 50%Z);
                            (Sample.neutral, 100%Z)] 3))
           (Sample.inState MOUTH)).
  - reflexivity.
  - reflexivity.
  - vm_compute. reflexivity.
  - vm_compute. reflexivity.
Defined.

(** ** The capture variant: dropped frames, waiting captures, scores *)

(** X10.  In the capture variant a face without the nose or jaw points is
    dropped whenever the guard lets [captureBestFace] run (state READY,
    BLINK or MOUTH): the [TypeError] leaves the callback before
    [processLiveness] is reached, so nothing changes and nothing is
    emitted, although the active challenge reads neither group.  In
    [main.js] the same frame is processed: in state BLINK with closed eyes
    it counts. *)
Theorem capture_drops_noseless_frame :
  forall (video : Capture.Image) (face : detection) (rest : list detection)
         (now : Z) (w : Capture.world),
    Capture.captureGuard (state (Capture.vars w)) = true ->
    noseRelX (Detection.landmarks face) = None ->
    Capture.step (Capture.Tick false video (face :: rest) now) w = (w, [])
    /\ (state (Capture.vars w) = BLINK ->
        eyesClosed (Detection.landmarks face) = true ->
        MainJs.step (MainJs.Tick false (face :: rest) now) (Capture.vars w)
        = (mkGlobals BLINK (Num.incr (blinkCounter (Capture.vars w)))
             (mouthOpenCounter (Capture.vars w))
             (headShakeData (Capture.vars w)), [])).
Proof.
  intros video face rest now w Hguard Hnose. split.
  - cbn. unfold Capture.onTick, Capture.captureBestFace, bind.
    rewrite Hguard, Hnose. reflexivity.
  - intros Hs Hclosed. unfold eyesClosed in Hclosed.
    destruct (avgEAR (Detection.landmarks face)) as [a|] eqn:Ea;
      [|discriminate].
    cbn. unfold MainJs.onTick.
    rewrite (processLiveness_blink _ now _ a Hs Ea), Hclosed. reflexivity.
Qed.

(** X10 on a sample: closed eyes, no nose ridge, at the start of a
    session. *)
Lemma capture_drops_noseless_frame_witness :
  Capture.step (Capture.Tick false 7%N [Detection.mk 0.9 Sample2.noNose] 0)
    (Capture.onVideoPlay Capture.initial)
  = (Capture.onVideoPlay Capture.initial, [])
  /\ MainJs.step (MainJs.Tick false [Detection.mk 0.9 Sample2.noNose] 0)
       (MainJs.onVideoPlay MainJs.initial)
     = (mkGlobals BLINK 1 0 (HeadShake.mk 0 0 0), []).
Proof.
  destruct (capture_drops_noseless_frame 7%N (Detection.mk 0.9 Sample2.noNose)
              [] 0 (Capture.onVideoPlay Capture.initial)
              eq_refl eq_refl) as [Hdrop Hmain].
  split; [exact Hdrop|]. apply Hmain; [reflexivity | vm_compute; reflexivity].
Defined.

(** X11.  A restart does not cancel the captures that are still being
    encoded: it resets [bestFace] and keeps every waiting callback, and
    when such a callback then runs with a blob, the still and the score of
    the frame registered before the restart become the [bestFace] of the
    new session. *)
Theorem restart_keeps_waiting_captures :
  forall (w : Capture.world) (k : nat) (img : Capture.Image) (sc : float),
    nth_error (Capture.pendingBlobs w) k = Some (img, sc) ->
    let w1 := fst (Capture.step Capture.RestartClick w) in
    Capture.bestFace w1 = Capture.initialBestFace
    /\ Capture.pendingBlobs w1 = Capture.pendingBlobs w
    /\ Capture.bestFace (fst (Capture.step (Capture.BlobReady k true) w1))
       = Capture.BestFace.mk (Some img) sc.
Proof.
  intros w k img sc Hk. cbn. unfold Capture.onBlob. cbn. rewrite Hk.
  repeat split.
Qed.

(** X11 on a sample run: a frontal frame, a restart, then the callback. *)
Lemma restart_keeps_waiting_captures_witness :
  let w :=
    fst (Capture.step
           (Capture.Tick false 7%N [Detection.mk 0.9 Sample.neutral] 0)
           (Capture.onVideoPlay Capture.initial)) in
  let w1 := fst (Capture.step Capture.RestartClick w) in
  Capture.bestFace w1 = Capture.initialBestFace
  /\ Capture.pendingBlobs w1 = Capture.pendingBlobs w
  /\ Capture.bestFace (fst (Capture.step (Capture.BlobReady 0 true) w1))
     = Capture.BestFace.mk (Some 7%N) 0.9.
Proof.
  apply (restart_keeps_waiting_captures
           (fst (Capture.step
                   (Capture.Tick false 7%N [Detection.mk 0.9 Sample.neutral] 0)
                   (Capture.onVideoPlay Capture.initial)))
           0%nat 7%N 0.9%float).
  vm_compute. reflexivity.
Defined.

(** What a tick does to the waiting captures, whatever the face. *)
Lemma capture_tick_pending_cases (paused : bool) (video : Capture.Image)
    (dets : list detection) (now : Z) (w : Capture.world) :
  let w' := fst (Capture.onTick paused video dets now w) in
  Capture.pendingBlobs w' = Capture.pendingBlobs w
  \/ exists sc,
       Capture.pendingBlobs w' = Capture.pendingBlobs w ++ [(video, sc)]
       /\ Num.gt sc (Capture.BestFace.score (Capture.bestFace w)) = true.
Proof.
  cbn zeta. destruct paused; [left; reflexivity|].
  destruct dets as [|face rest]; [left; reflexivity|].
  destruct (noseRelX (Detection.landmarks face)) as [r|] eqn:Hr.
  - rewrite (capture_tick_pending video face rest now w r Hr).
    destruct (Capture.captureGuard (state (Capture.vars w))
              && Capture.isFrontal r
              && Num.gt (Detection.score face)
                   (Capture.BestFace.score (Capture.bestFace w))) eqn:E.
    + right. exists (Detection.score face). split; [reflexivity|].
      apply andb_prop in E as [_ E]. exact E.
    + left. reflexivity.
  - left. unfold Capture.onTick, Capture.captureBestFace, bind. rewrite Hr.
    destruct (Capture.captureGuard (state (Capture.vars w))); cbn;
      [reflexivity|].
    destruct (processLiveness (Detection.landmarks face) now (Capture.vars w))
      as [[g' out]|]; reflexivity.
Qed.

Lemma pendingPositive_remove (k : nat) (pend : list (Capture.Image * float)) :
  pendingPositive pend ->
  pendingPositive (firstn k pend ++ skipn (S k) pend).
Proof.
  unfold pendingPositive. rewrite !Forall_forall. intros H c Hin.
  apply H. apply in_app_or in Hin as [Hin | Hin].
  - rewrite <- (firstn_skipn k pend). apply in_or_app. left. exact Hin.
  - rewrite <- (firstn_skipn (S k) pend). apply in_or_app. right. exact Hin.
Qed.

(** X12.  [bestFace] is always consistent, and a score that is not above
    zero is never kept: once the interval is installed, after any events,
    [bestFace] holds no still and score 0, or a still and a score above 0,
    and every waiting capture carries a score above 0 (so a NaN, zero or
    negative detection score never reaches [bestFace]). *)
Theorem bestFace_consistent :
  forall w : Capture.world,
    reachableWorld w ->
    bestFaceConsistent (Capture.bestFace w)
    /\ pendingPositive (Capture.pendingBlobs w).
Proof.
  induction 1 as [|e w Hreach [Hbest Hpend]].
  - split; [left; split; reflexivity | constructor].
  - destruct e as [paused video dets now | k encoded |].
    + cbn [Capture.step].
      assert (Hb : Capture.bestFace (fst (Capture.onTick paused video dets now w))
                   = Capture.bestFace w) by apply capture_tick_frame.
      rewrite Hb. split; [exact Hbest|].
      destruct (capture_tick_pending_cases paused video dets now w)
        as [-> | (sc & -> & Hgt)]; [exact Hpend|].
      apply Forall_app. split; [exact Hpend|].
      constructor; [|constructor]. cbn [snd]. unfold Num.gt in Hgt.
      destruct Hbest as [[_ Hzero] | [_ Hpos]].
      * rewrite Hzero in Hgt. exact Hgt.
      * exact (ltb_trans _ _ _ Hpos Hgt).
    + cbn [Capture.step fst]. unfold Capture.onBlob.
      destruct (nth_error (Capture.pendingBlobs w) k) as [[img sc]|] eqn:Hk;
        [|split; assumption].
      assert (Hsc : (0 <? sc)%float = true).
      { unfold pendingPositive in Hpend. rewrite Forall_forall in Hpend.
        apply (Hpend (img, sc)). exact (nth_error_In _ _ Hk). }
      destruct encoded; cbn.
      * split; [right; split; [exists img; reflexivity | exact Hsc]|].
        apply pendingPositive_remove. exact Hpend.
      * split; [exact Hbest | apply pendingPositive_remove; exact Hpend].
    + cbn. split; [left; split; reflexivity | exact Hpend].
Qed.

(** X12 after a frontal frame and its callback. *)
Lemma bestFace_consistent_witness :
  let w :=
    fst (Capture.step (Capture.BlobReady 0 true)
           (fst (Capture.step
                   (Capture.Tick false 7%N [Detection.mk 0.9 Sample.neutral] 0)
                   (Capture.onVideoPlay Capture.initial)))) in
  bestFaceConsistent (Capture.bestFace w)
  /\ pendingPositive (Capture.pendingBlobs w).
Proof.
  cbn zeta. apply bestFace_consistent.
  apply world_step, world_step, world_start.
Defined.

(** X13.  Once the interval is installed, in both scripts and after any
    events, the state is never LOADING or READY again and the trackers of
    the challenges that are not the active one are clean: both counters
    are 0 outside their own state, and no look is recorded before SHAKE. *)
Theorem inactive_trackers_stay_clean :
  forall (g : globals) (w : Capture.world),
    reachable g ->
    reachableWorld w ->
    otherTrackersClean g /\ otherTrackersClean (Capture.vars w).
Proof.
  intros g w Hg Hw. split; [exact (reachable_otherTrackersClean g Hg)|].
  clear g Hg. induction Hw as [|e w Hreach IH].
  - cbn. split; reflexivity.
  - destruct e as [paused video dets now | k encoded |].
    + cbn [Capture.step]. unfold Capture.onTick.
      destruct paused; [exact IH|].
      destruct dets as [|face rest]; [exact IH|].
      destruct (if Capture.captureGuard (state (Capture.vars w))
                then Capture.captureBestFace video face w else Some w)
        as [w1|] eqn:Ecap; [|exact IH].
      assert (Hv : Capture.vars w1 = Capture.vars w).
      { destruct (Capture.captureGuard (state (Capture.vars w))).
        - apply (captureBestFace_vars _ _ _ _ Ecap).
        - injection Ecap as <-. reflexivity. }
      destruct (processLiveness (Detection.landmarks face) now (Capture.vars w1))
        as [[g' out]|] eqn:E; cbn [fst Capture.vars].
      * rewrite Hv in E.
        apply (processLiveness_progress _ _ _ _ _ IH E).
      * rewrite Hv. exact IH.
    + cbn [Capture.step fst]. unfold Capture.onBlob.
      destruct (nth_error (Capture.pendingBlobs w) k) as [[img sc]|];
        [destruct encoded|]; exact IH.
    + cbn. split; reflexivity.
Qed.

(** X13 after a closed-eyes frame at the start of a session. *)
Lemma inactive_trackers_stay_clean_witness :
  otherTrackersClean
    (fst (MainJs.step
            (MainJs.Tick false [Detection.mk 0.9 Sample.blinking] 0)
            (MainJs.onVideoPlay MainJs.initial)))
  /\ otherTrackersClean
       (Capture.vars
          (fst (Capture.step
                  (Capture.Tick false 7%N [Detection.mk 0.9 Sample.blinking] 0)
                  (Capture.onVideoPlay Capture.initial)))).
Proof.
  apply inactive_trackers_stay_clean.
  - apply reach_step, reach_start.
  - apply world_step, world_start.
Defined.

(** ** The page *)

Module UiFacts.

Import String.
#[local] Open Scope string_scope.

Lemma contains_In (c : string) (l : Ui.classList) :
  Ui.contains c l = true <-> In c l.
Proof.
  unfold Ui.contains. rewrite existsb_exists. split.
  - intros (d & Hin & Heq). apply String.eqb_eq in Heq. subst. exact Hin.
  - intros Hin. exists c. split; [exact Hin | apply String.eqb_refl].
Qed.

Lemma contains_remove (c : string) (tokens : list string) (l : Ui.classList) :
  Ui.contains c (Ui.remove tokens l)
  = Ui.contains c l && negb (Ui.contains c tokens).
Proof.
  apply Bool.eq_iff_eq_true.
  rewrite andb_true_iff, !contains_In. unfold Ui.remove.
  rewrite filter_In. reflexivity.
Qed.

Lemma contains_add (c token : string) (l : Ui.classList) :
  Ui.contains c (Ui.add token l) = Ui.contains c l || String.eqb c token.
Proof.
  apply Bool.eq_iff_eq_true.
  rewrite orb_true_iff, String.eqb_eq, !contains_In. unfold Ui.add.
  destruct (Ui.contains token l) eqn:Ht.
  - apply contains_In in Ht. split; [auto|]. intros [H | ->]; assumption.
  - rewrite in_app_iff. cbn. split.
    + intros [H | [H | []]]; [left; exact H | right; symmetry; exact H].
    + intros [H | H]; [left; exact H | right; left; symmetry; exact H].
Qed.

Lemma contains_mark (c new : string) (old : list string) (l : Ui.classList) :
  Ui.contains c (Ui.mark old new l)
  = Ui.contains c l && negb (Ui.contains c old) || String.eqb c new.
Proof. unfold Ui.mark. rewrite contains_add, contains_remove. reflexivity. Qed.

Lemma isMarker_cases (c : string) :
  Ui.isMarker c = true -> c = "pending" \/ c = "active" \/ c = "completed".
Proof.
  unfold Ui.isMarker, Ui.contains. cbn.
  destruct (String.eqb_spec c "pending"); [auto|].
  destruct (String.eqb_spec c "active"); [auto|].
  destruct (String.eqb_spec c "completed"); [auto|].
  discriminate.
Qed.

(** Compute the class lists that [updateUI] leaves. *)
Ltac page_fields :=
  cbn [Ui.updateUI Ui.forEachTask Ui.setTaskBlink Ui.setTaskMouth
       Ui.setTaskShake Ui.setInstruction Ui.setStatus Ui.setRestartDisplay
       Ui.taskBlink Ui.taskMouth Ui.taskShake Ui.instructionText
       Ui.statusText Ui.restartDisplay Ui.bodyImages Ui.alerts
       Ui.bestFaceSrc].

(** Decide a statement about the markers of a marked list. *)
Ltac settle_markers :=
  intros c Hc; destruct (isMarker_cases c Hc) as [-> | [-> | ->]]; clear Hc;
  rewrite !contains_mark;
  repeat match goal with
    | |- context [Ui.contains ?t (Ui.taskBlink ?p)] =>
        generalize (Ui.contains t (Ui.taskBlink p)); intro
    | |- context [Ui.contains ?t (Ui.taskMouth ?p)] =>
        generalize (Ui.contains t (Ui.taskMouth p)); intro
    | |- context [Ui.contains ?t (Ui.taskShake ?p)] =>
        generalize (Ui.contains t (Ui.taskShake p)); intro
    end;
  repeat match goal with b : bool |- _ => destruct b end;
  vm_compute; split; intros H; try reflexivity; discriminate.

(** The class lists of the three items after [updateUI], whatever runs at
    the end of the COMPLETED branch, as long as it leaves them alone. *)
Lemma updateUI_checklist (hook : Ui.page -> Ui.page) (s : state_t)
    (p : Ui.page) :
  Ui.keepsLayout hook ->
  Ui.checklistShows s (Ui.updateUI hook s p).
Proof.
  intros Hhook. unfold Ui.checklistShows, Ui.marked.
  destruct s; cbn [Ui.updateUI];
    try (destruct (Hhook
           (Ui.setRestartDisplay "inline-block"
              (Ui.setStatus "Completed"
                 (Ui.setInstruction "Verification Success! (验证通过)"
                    (Ui.forEachTask (Ui.mark ["pending"; "active"] "completed")
                       (Ui.forEachTask (Ui.mark ["active"; "completed"] "pending")
                          p))))))
           as (-> & -> & -> & _ & _));
    page_fields; clear Hhook; (split; [|split]); settle_markers.
Qed.

Lemma identity_keepsLayout : Ui.keepsLayout (fun q => q).
Proof. intros q. repeat split. Qed.

Lemma onCompleted_keepsLayout (bf : Capture.BestFace.t) :
  Ui.keepsLayout (Ui.onCompleted bf).
Proof.
  intros q. unfold Ui.onCompleted.
  destruct (Capture.BestFace.blob bf); repeat split.
Qed.

(** After [updateUI] the page shows the state. *)
Lemma updateUI_inSync (hook : Ui.page -> Ui.page) (s : state_t) (p : Ui.page) :
  Ui.keepsLayout hook ->
  Ui.instructionFor s <> None ->
  Ui.inSync s (Ui.updateUI hook s p).
Proof.
  intros Hhook Hs. split; [apply updateUI_checklist; exact Hhook|].
  destruct s; try (exfalso; apply Hs; reflexivity); cbn [Ui.updateUI];
    try (split; [reflexivity | discriminate]).
  match goal with
  | |- context [hook ?q] => destruct (Hhook q) as (_ & _ & _ & -> & ->)
  end.
  split; [reflexivity | intros _; reflexivity].
Qed.

(** Writing the status or hiding the button keeps what the page shows of
    a state that is not COMPLETED; writing the status keeps it always. *)
Lemma setStatus_inSync (t : string) (s : state_t) (p : Ui.page) :
  Ui.inSync s p -> Ui.inSync s (Ui.setStatus t p).
Proof. intros H. exact H. Qed.

Lemma hide_restart_inSync (s : state_t) (p : Ui.page) :
  s <> COMPLETED -> Ui.inSync s p -> Ui.inSync s (Ui.setRestartDisplay "none" p).
Proof.
  intros Hs (H1 & H2 & _). split; [exact H1|]. split; [exact H2|].
  intros ->. contradiction.
Qed.

Section WithToFixed.

Variable toFixed2 : float -> string.

(** The handlers with their page writes compute the same variables and
    edges as the handlers without: the page never feeds back. *)
Lemma ui_processLiveness_refines (hook : Ui.page -> Ui.page)
    (lms : FaceLandmarks) (now : Z) (g : globals) (p : Ui.page) :
  processLiveness lms now g
  = match Ui.processLiveness toFixed2 hook lms now g p with
    | Some (g', _, out) => Some (g', out)
    | None => None
    end.
Proof.
  unfold processLiveness, Ui.processLiveness, bind.
  destruct (state g); break_match; reflexivity.
Qed.

Lemma ui_mainStep_refines (e : MainJs.event) (g : globals) (p : Ui.page) :
  MainJs.step e g
  = (fst (fst (Ui.mainStep toFixed2 e g p)), snd (Ui.mainStep toFixed2 e g p)).
Proof.
  destruct e as [paused dets now|]; [|reflexivity].
  cbn [MainJs.step Ui.mainStep]. unfold MainJs.onTick, Ui.mainOnTick.
  destruct paused; [reflexivity|]. destruct dets as [|face rest]; [reflexivity|].
  rewrite (ui_processLiveness_refines (fun q => q) _ now g p).
  destruct (Ui.processLiveness toFixed2 (fun q => q)
              (Detection.landmarks face) now g p) as [[[g' p'] out]|];
    reflexivity.
Qed.

Lemma ui_captureStep_refines (e : Capture.event) (w : Capture.world)
    (p : Ui.page) :
  Capture.step e w
  = (fst (fst (Ui.captureStep toFixed2 e w p)),
     snd (Ui.captureStep toFixed2 e w p)).
Proof.
  destruct e as [paused video dets now | k encoded |]; try reflexivity.
  cbn [Capture.step Ui.captureStep]. unfold Capture.onTick, Ui.captureOnTick.
  destruct paused; [reflexivity|]. destruct dets as [|face rest]; [reflexivity|].
  destruct (if Capture.captureGuard (state (Capture.vars w))
            then Capture.captureBestFace video face w else Some w) as [w1|];
    [|reflexivity].
  rewrite (ui_processLiveness_refines (Ui.onCompleted (Capture.bestFace w1))
             _ now (Capture.vars w1) p).
  destruct (Ui.processLiveness toFixed2 (Ui.onCompleted (Capture.bestFace w1))
              (Detection.landmarks face) now (Capture.vars w1) p)
    as [[[g' p'] out]|]; reflexivity.
Qed.

(** A call of [processLiveness] that returns either keeps the state,
    emits nothing and writes at most the status, or moves the state, emits
    one edge and leaves the page as [updateUI] makes it for the new
    state. *)
Lemma ui_processLiveness_cases (hook : Ui.page -> Ui.page)
    (lms : FaceLandmarks) (now : Z) (g g' : globals) (p p' : Ui.page)
    (out : list edge) :
  Ui.processLiveness toFixed2 hook lms now g p = Some (g', p', out) ->
  (state g' = state g /\ out = [] /\ p' = Ui.setStatus (Ui.statusText p') p)
  \/ (state g' <> state g /\ Ui.instructionFor (state g') <> None
      /\ (exists e, out = [e] /\ challengeState e = state g)
      /\ p' = Ui.updateUI hook (state g') p).
Proof.
  unfold Ui.processLiveness, bind. destruct g as [s bc mc hs]. cbn.
  destruct p as [tb tm ts it st rd bi al bs].
  destruct s; break_match; intros [= <- <- <-]; cbn;
    try (left; repeat split; reflexivity);
    right; (split; [discriminate|]); (split; [discriminate|]);
    (split; [eexists; split; reflexivity | reflexivity]).
Qed.

End WithToFixed.




(** One handler of [main.js] keeps the page in step with the state. *)
Lemma mainStep_inSync (toFixed2 : float -> string) (e : MainJs.event)
    (g : globals) (p : Ui.page) :
  Ui.inSync (state g) p ->
  Ui.inSync (state (fst (fst (Ui.mainStep toFixed2 e g p))))
    (snd (fst (Ui.mainStep toFixed2 e g p))).
Proof.
  intros Hsync. destruct e as [paused dets now|].
  - cbn [Ui.mainStep]. unfold Ui.mainOnTick.
    destruct paused; [exact Hsync|].
    destruct dets as [|face rest]; [exact Hsync|].
    destruct (Ui.processLiveness toFixed2 (fun q => q)
                (Detection.landmarks face) now g p)
      as [[[g' p'] out]|] eqn:E; [|exact Hsync].
    cbn [fst snd]. apply setStatus_inSync.
    destruct (ui_processLiveness_cases toFixed2 _ _ _ _ _ _ _ _ E)
      as [(Hs & _ & Hp) | (_ & Hs & _ & Hp)].
    + rewrite Hs, Hp. exact Hsync.
    + rewrite Hp. apply updateUI_inSync; [apply identity_keepsLayout | exact Hs].
  - cbn. apply hide_restart_inSync; [discriminate|].
    apply (updateUI_inSync (fun q => q) BLINK p);
      [apply identity_keepsLayout | discriminate].
Qed.

(** One handler of the capture variant does so too. *)
Lemma captureStep_inSync (toFixed2 : float -> string) (e : Capture.event)
    (w : Capture.world) (p : Ui.page) :
  Ui.inSync (state (Capture.vars w)) p ->
  Ui.inSync (state (Capture.vars (fst (fst (Ui.captureStep toFixed2 e w p)))))
    (snd (fst (Ui.captureStep toFixed2 e w p))).
Proof.
  intros Hsync. destruct e as [paused video dets now | k encoded |].
  - cbn [Ui.captureStep]. unfold Ui.captureOnTick.
    destruct paused; [exact Hsync|].
    destruct dets as [|face rest]; [exact Hsync|].
    destruct (if Capture.captureGuard (state (Capture.vars w))
              then Capture.captureBestFace video face w else Some w)
      as [w1|] eqn:Ecap; [|exact Hsync].
    assert (Hv : Capture.vars w1 = Capture.vars w).
    { destruct (Capture.captureGuard (state (Capture.vars w))).
      - apply (captureBestFace_vars _ _ _ _ Ecap).
      - injection Ecap as <-. reflexivity. }
    destruct (Ui.processLiveness toFixed2 (Ui.onCompleted (Capture.bestFace w1))
                (Detection.landmarks face) now (Capture.vars w1) p)
      as [[[g' p'] out]|] eqn:E; cbn [fst snd Capture.vars].
    + apply setStatus_inSync.
      destruct (ui_processLiveness_cases toFixed2 _ _ _ _ _ _ _ _ E)
        as [(Hs & _ & Hp) | (_ & Hs & _ & Hp)].
      * rewrite Hs, Hp, Hv. exact Hsync.
      * rewrite Hp. apply updateUI_inSync;
          [apply onCompleted_keepsLayout | exact Hs].
    + rewrite Hv. exact Hsync.
  - cbn [Ui.captureStep fst snd]. unfold Capture.onBlob.
    destruct (nth_error (Capture.pendingBlobs w) k) as [[img sc]|];
      [destruct encoded|]; exact Hsync.
  - cbn. apply hide_restart_inSync; [discriminate|].
    apply (updateUI_inSync (Ui.onCompleted (Capture.bestFace w)) BLINK p);
      [apply onCompleted_keepsLayout | discriminate].
Qed.

(** X15.  The page always shows the state.  Once the interval is
    installed, in both scripts, after any events and from whatever page
    the document starts with: the checklist marks the challenges before
    the current one completed, the current one active and the later ones
    pending; the instruction is the one of the current state; and in
    COMPLETED the restart button is displayed. *)
Theorem page_shows_state :
  forall (toFixed2 : float -> string) (g : globals) (p : Ui.page)
         (w : Capture.world) (q : Ui.page),
    Ui.mainReachable toFixed2 g p ->
    Ui.captureReachable toFixed2 w q ->
    Ui.inSync (state g) p /\ Ui.inSync (state (Capture.vars w)) q.
Proof.
  intros toFixed2 g p w q Hmain Hcap. split.
  - clear w q Hcap. induction Hmain as [p0 | e g p Hreach IH].
    + apply (updateUI_inSync (fun r => r) BLINK p0);
        [apply identity_keepsLayout | discriminate].
    + apply mainStep_inSync. exact IH.
  - clear g p Hmain. induction Hcap as [p0 | e w q Hreach IH].
    + apply (updateUI_inSync (Ui.onCompleted Capture.initialBestFace) BLINK p0);
        [apply onCompleted_keepsLayout | discriminate].
    + apply captureStep_inSync. exact IH.
Qed.

(** X16.  No handler leaves a status text of its own: after any handler
    of either script the status line holds what it held before, or "Face
    detected", or "No face detected".  The texts that [processLiveness],
    [updateUI] and [onCompleted] write ("Eyes Closed: ...", "Completed",
    "Completed. Best face captured!") are overwritten before the interval
    callback returns. *)
Theorem status_is_overwritten :
  forall (toFixed2 : float -> string) (e : MainJs.event) (g : globals)
         (e' : Capture.event) (w : Capture.world) (p : Ui.page),
    let after := Ui.statusText (snd (fst (Ui.mainStep toFixed2 e g p))) in
    let after' := Ui.statusText (snd (fst (Ui.captureStep toFixed2 e' w p))) in
    (after = Ui.statusText p \/ after = "Face detected"
     \/ after = "No face detected")
    /\ (after' = Ui.statusText p \/ after' = "Face detected"
        \/ after' = "No face detected").
Proof.
  intros toFixed2 e g e' w p. cbn zeta. split.
  - destruct e as [paused dets now|]; [|left; reflexivity].
    cbn [Ui.mainStep]. unfold Ui.mainOnTick.
    destruct paused; [left; reflexivity|].
    destruct dets as [|face rest]; [right; right; reflexivity|].
    destruct (Ui.processLiveness toFixed2 (fun q => q)
                (Detection.landmarks face) now g p) as [[[g' p'] out]|];
      [right; left; reflexivity | left; reflexivity].
  - destruct e' as [paused video dets now | k encoded |];
      [| left; reflexivity | left; reflexivity].
    cbn [Ui.captureStep]. unfold Ui.captureOnTick.
    destruct paused; [left; reflexivity|].
    destruct dets as [|face rest]; [right; right; reflexivity|].
    destruct (if Capture.captureGuard (state (Capture.vars w))
              then Capture.captureBestFace video face w else Some w)
      as [w1|]; [|left; reflexivity].
    destruct (Ui.processLiveness toFixed2 (Ui.onCompleted (Capture.bestFace w1))
                (Detection.landmarks face) now (Capture.vars w1) p)
      as [[[g' p'] out]|];
      [right; left; reflexivity | left; reflexivity].
Qed.

Lemma updateUI_report (hook : Ui.page -> Ui.page) (s : state_t) (p : Ui.page) :
  s <> COMPLETED -> Ui.report (Ui.updateUI hook s p) = Ui.report p.
Proof.
  intros Hs. destruct s; try reflexivity. contradiction.
Qed.

Lemma updateUI_completed_report (bf : Capture.BestFace.t) (p : Ui.page) :
  Ui.report (Ui.updateUI (Ui.onCompleted bf) COMPLETED p)
  = Ui.report (Ui.onCompleted bf p).
Proof.
  cbn [Ui.updateUI]. unfold Ui.onCompleted.
  destruct (Capture.BestFace.blob bf); reflexivity.
Qed.

(** X17.  In the capture variant a completion is reported once, with the
    [bestFace] of that moment.  The handler that emits the "shake" edge
    reports as [onCompleted] does on the [bestFace] the world held when
    the handler started: one alert, and with a still in [bestFace] also
    one thumbnail and that still as the upload.  No other handler changes
    the thumbnails, the alerts or the upload; in particular a capture
    whose callback runs after the completion is never reported. *)
Theorem completion_reported_once :
  forall (toFixed2 : float -> string) (e : Capture.event) (w : Capture.world)
         (p : Ui.page),
    let r := Ui.captureStep toFixed2 e w p in
    Ui.report (snd (fst r))
    = (if existsb (fun d => state_eqb (challengeState d) SHAKE) (snd r)
       then Ui.report (Ui.onCompleted (Capture.bestFace w) p)
       else Ui.report p).
Proof.
  intros toFixed2 e w p. cbn zeta.
  destruct e as [paused video dets now | k encoded |]; try reflexivity.
  cbn [Ui.captureStep]. unfold Ui.captureOnTick.
  destruct paused; [reflexivity|].
  destruct dets as [|face rest]; [reflexivity|].
  destruct (if Capture.captureGuard (state (Capture.vars w))
            then Capture.captureBestFace video face w else Some w)
    as [w1|] eqn:Ecap; [|reflexivity].
  assert (Hb : Capture.bestFace w1 = Capture.bestFace w).
  { destruct (Capture.captureGuard (state (Capture.vars w))).
    - apply (captureBestFace_vars _ _ _ _ Ecap).
    - injection Ecap as <-. reflexivity. }
  rewrite Hb.
  destruct (Ui.processLiveness toFixed2 (Ui.onCompleted (Capture.bestFace w))
              (Detection.landmarks face) now (Capture.vars w1) p)
    as [[[g' p'] out]|] eqn:E; [|reflexivity].
  cbn [fst snd].
  change (Ui.report (Ui.setStatus "Face detected" p')) with (Ui.report p').
  destruct (ui_processLiveness_cases toFixed2 _ _ _ _ _ _ _ _ E)
    as [(_ & -> & Hp) | (Hne & _ & (d & -> & Hd) & ->)].
  - rewrite Hp. reflexivity.
  - cbn [existsb]. rewrite Hd, orb_false_r.
    pose proof (processLiveness_frame _ _ _ _ _
                  (eq_trans (ui_processLiveness_refines toFixed2 _ _ now _ p)
                     (f_equal (fun o => match o with
                                        | Some (g0, _, out0) => Some (g0, out0)
                                        | None => None
                                        end) E)))
      as ([Hs | Hadv] & _ & _); [contradiction|].
    destruct Hadv as [(Ha & Hb') | [(Ha & Hb') | (Ha & Hb')]];
      rewrite Ha, Hb'; cbn [state_eqb];
      [apply updateUI_report; discriminate
      | apply updateUI_report; discriminate
      | apply updateUI_completed_report].
Qed.

(** X15 after a restart click at the start of a session, from an empty
    page, in both scripts. *)
Lemma page_shows_state_witness :
  let blank := Ui.mkPage [] [] [] "" "" "" [] [] None in
  let toFixed2 := fun _ : float => "0.00" in
  Ui.inSync
    (state (fst (fst (Ui.mainStep toFixed2 MainJs.RestartClick
                        (MainJs.onVideoPlay MainJs.initial)
                        (Ui.updateUI (fun q => q) BLINK blank)))))
    (snd (fst (Ui.mainStep toFixed2 MainJs.RestartClick
                 (MainJs.onVideoPlay MainJs.initial)
                 (Ui.updateUI (fun q => q) BLINK blank))))
  /\ Ui.inSync
       (state (Capture.vars
                 (fst (fst (Ui.captureStep toFixed2 Capture.RestartClick
                              (Capture.onVideoPlay Capture.initial)
                              (Ui.updateUI
                                 (Ui.onCompleted Capture.initialBestFace)
                                 BLINK blank))))))
       (snd (fst (Ui.captureStep toFixed2 Capture.RestartClick
                    (Capture.onVideoPlay Capture.initial)
                    (Ui.updateUI (Ui.onCompleted Capture.initialBestFace)
                       BLINK blank)))).
Proof.
  cbn zeta. apply (page_shows_state (fun _ : float => "0.00")).
  - apply Ui.main_step, Ui.main_start.
  - apply Ui.capture_step, Ui.capture_start.
Defined.

End UiFacts.
